(** * Auto Rate Fallback (ARF) rate control: arf-wifi-manager.cc

    A shallow embedding of the ARF station record and of the report
    handlers of [ArfWifiManager], followed by the properties of the
    rate index that the handlers maintain. *)

From Stdlib Require Import ZArith Bool List String Lia.
Import ListNotations.
Open Scope Z_scope.

(** ** Machine integers

    Every counter of the station is a [uint32_t]; the size of the
    operational rate set is a [size_t] (64 bits).  Values are kept in [Z]
    and every arithmetic result is reduced modulo the width. *)

Definition uint32_modulus : Z := 4294967296.
Definition size_t_modulus : Z := 18446744073709551616.

Definition to_uint32 (z : Z) : Z := z mod uint32_modulus.
Definition to_size_t (z : Z) : Z := z mod size_t_modulus.

Definition is_uint32 (z : Z) : Prop := 0 <= z < uint32_modulus.
Definition is_size_t (z : Z) : Prop := 0 <= z < size_t_modulus.

(** ** Fatal termination

    [NS_FATAL_ERROR] and a failed [NS_ASSERT] stop the program; a handler
    that can reach one of them returns an [outcome]. *)

Inductive outcome (A : Type) : Type :=
| Done (a : A)
| Aborted (msg : string).
Arguments Done {A} a.
Arguments Aborted {A} msg.

Definition bind {A B : Type} (c : outcome A) (k : A -> outcome B) : outcome B :=
  match c with
  | Done a => k a
  | Aborted msg => Aborted msg
  end.

Notation "x <- c ;; k" := (bind c (fun x => k))
  (at level 61, c at next level, right associativity).
Notation "c ;;; k" := (bind c (fun _ => k))
  (at level 61, right associativity).

Definition NS_FATAL_ERROR {A : Type} (msg : string) : outcome A := Aborted msg.

(** ** struct ArfWifiRemoteStation *)

Module Station.

Record ArfWifiRemoteStation : Type := mkStation {
  m_timer : Z;             (* uint32_t, timer value *)
  m_success : Z;           (* uint32_t, success count *)
  m_failed : Z;            (* uint32_t, failed count *)
  m_recovery : bool;       (* recovery *)
  m_retry : Z;             (* uint32_t, retry count *)
  m_timerTimeout : Z;      (* uint32_t, timer timeout *)
  m_successThreshold : Z;  (* uint32_t, success threshold *)
  m_rate : Z               (* uint32_t, rate *)
}.

Definition set_m_timer (v : Z) (s : ArfWifiRemoteStation) :=
  mkStation v (m_success s) (m_failed s) (m_recovery s) (m_retry s)
            (m_timerTimeout s) (m_successThreshold s) (m_rate s).
Definition set_m_success (v : Z) (s : ArfWifiRemoteStation) :=
  mkStation (m_timer s) v (m_failed s) (m_recovery s) (m_retry s)
            (m_timerTimeout s) (m_successThreshold s) (m_rate s).
Definition set_m_failed (v : Z) (s : ArfWifiRemoteStation) :=
  mkStation (m_timer s) (m_success s) v (m_recovery s) (m_retry s)
            (m_timerTimeout s) (m_successThreshold s) (m_rate s).
Definition set_m_recovery (v : bool) (s : ArfWifiRemoteStation) :=
  mkStation (m_timer s) (m_success s) (m_failed s) v (m_retry s)
            (m_timerTimeout s) (m_successThreshold s) (m_rate s).
Definition set_m_retry (v : Z) (s : ArfWifiRemoteStation) :=
  mkStation (m_timer s) (m_success s) (m_failed s) (m_recovery s) v
            (m_timerTimeout s) (m_successThreshold s) (m_rate s).
Definition set_m_timerTimeout (v : Z) (s : ArfWifiRemoteStation) :=
  mkStation (m_timer s) (m_success s) (m_failed s) (m_recovery s) (m_retry s)
            v (m_successThreshold s) (m_rate s).
Definition set_m_successThreshold (v : Z) (s : ArfWifiRemoteStation) :=
  mkStation (m_timer s) (m_success s) (m_failed s) (m_recovery s) (m_retry s)
            (m_timerTimeout s) v (m_rate s).
Definition set_m_rate (v : Z) (s : ArfWifiRemoteStation) :=
  mkStation (m_timer s) (m_success s) (m_failed s) (m_recovery s) (m_retry s)
            (m_timerTimeout s) (m_successThreshold s) v.

(** The value [new ArfWifiRemoteStation ()] yields before its fields are
    assigned; [DoCreateStation] overwrites every field. *)
Definition blank : ArfWifiRemoteStation := mkStation 0 0 0 false 0 0 0 0.

(** Every counter holds a 32-bit unsigned value. *)
Definition well_formed (s : ArfWifiRemoteStation) : Prop :=
  is_uint32 (m_timer s) /\ is_uint32 (m_success s) /\ is_uint32 (m_failed s) /\
  is_uint32 (m_retry s) /\ is_uint32 (m_timerTimeout s) /\
  is_uint32 (m_successThreshold s) /\ is_uint32 (m_rate s).

End Station.

(** ** The base class and the transmission vector

    The two queries call members of [WifiRemoteStationManager] and of
    [WifiMode] and build a [WifiTxVector]; none of these is declared in
    this file.  The members are taken as an interface, [WifiRemoteStation]
    being the base subobject of a station, which is all they read. *)

Record WifiRemoteStationManager : Type := {
  WifiRemoteStation : Type;
  WifiMode : Type;
  WifiPreamble : Type;
  Mac48Address : Type;
  GetChannelWidth : WifiRemoteStation -> Z;
  GetSupported : WifiRemoteStation -> Z -> WifiMode;
  GetNonErpSupported : WifiRemoteStation -> Z -> WifiMode;
  GetDataRate : WifiMode -> Z -> Z;
  GetDefaultTxPowerLevel : Z;
  GetLongRetryCount : WifiRemoteStation -> Z;
  GetPreambleForTransmission : WifiMode -> Mac48Address -> WifiPreamble;
  GetAddress : WifiRemoteStation -> Mac48Address;
  GetAggregation : WifiRemoteStation -> bool;
  GetUseNonErpProtection : bool
}.

(** The eleven arguments of the [WifiTxVector] constructor, in the order of
    the call. *)
Record WifiTxVector (B : WifiRemoteStationManager) : Type := mkTxVector {
  txMode : WifiMode B;
  txPowerLevel : Z;
  txRetries : Z;
  txPreamble : WifiPreamble B;
  txGuardInterval : Z;
  txNTx : Z;
  txNss : Z;
  txNess : Z;
  txChannelWidth : Z;
  txAggregation : bool;
  txStbc : bool
}.
Arguments mkTxVector {B}.
Arguments txMode {B}.
Arguments txPowerLevel {B}.
Arguments txRetries {B}.
Arguments txPreamble {B}.
Arguments txGuardInterval {B}.
Arguments txNTx {B}.
Arguments txNss {B}.
Arguments txNess {B}.
Arguments txChannelWidth {B}.
Arguments txAggregation {B}.
Arguments txStbc {B}.

(** ** class ArfWifiManager *)

Module ArfWifiManager.
Import Station.

(** The members of the manager: the two attributes registered by
    [GetTypeId] (TimerThreshold, default 15; SuccessThreshold, default 10)
    and the traced current rate. *)
Record members : Type := mkManager {
  m_timerThreshold : Z;    (* uint32_t *)
  m_successThreshold : Z;  (* uint32_t *)
  m_currentRate : Z        (* TracedValue<uint64_t> *)
}.

Definition default_members : members := mkManager 15 10 0.

Definition well_formed (this : members) : Prop :=
  is_uint32 (m_timerThreshold this) /\ is_uint32 (m_successThreshold this).

(** [DoCreateStation]: both thresholds are copied from the manager, every
    counter starts at zero. *)
Definition DoCreateStation (this : members) : ArfWifiRemoteStation :=
  let station := blank in
  let station := set_m_successThreshold (m_successThreshold this) station in
  let station := set_m_timerTimeout (m_timerThreshold this) station in
  let station := set_m_rate 0 station in
  let station := set_m_success 0 station in
  let station := set_m_failed 0 station in
  let station := set_m_recovery false station in
  let station := set_m_retry 0 station in
  let station := set_m_timer 0 station in
  station.

Section Handlers.

(** [NS_ASSERT] comes from the ns-3 core headers: it stops the program on
    a false condition in builds that define NS3_ASSERT_ENABLE and expands
    to nothing otherwise.  The build setting is a parameter. *)
Variable NS3_ASSERT_ENABLE : bool.

Definition NS_ASSERT (condition : bool) (text : string) : outcome unit :=
  if NS3_ASSERT_ENABLE
  then (if condition then Done tt else Aborted text)
  else Done tt.

(** [DoReportDataFailed]. *)
Definition DoReportDataFailed (st : ArfWifiRemoteStation)
  : outcome ArfWifiRemoteStation :=
  let station := st in
  let station := set_m_timer (to_uint32 (m_timer station + 1)) station in
  let station := set_m_failed (to_uint32 (m_failed station + 1)) station in
  let station := set_m_retry (to_uint32 (m_retry station + 1)) station in
  let station := set_m_success 0 station in
  if m_recovery station then
    NS_ASSERT (1 <=? m_retry station) "station->m_retry >= 1" ;;;
    let station :=
      if m_retry station =? 1 then
        (* need recovery fallback *)
        if negb (m_rate station =? 0)
        then set_m_rate (to_uint32 (m_rate station - 1)) station
        else station
      else station in
    Done (set_m_timer 0 station)
  else
    NS_ASSERT (1 <=? m_retry station) "station->m_retry >= 1" ;;;
    let station :=
      if to_uint32 (m_retry station - 1) mod 2 =? 1 then
        (* need normal fallback *)
        if negb (m_rate station =? 0)
        then set_m_rate (to_uint32 (m_rate station - 1)) station
        else station
      else station in
    let station :=
      if 2 <=? m_retry station
      then set_m_timer 0 station
      else station in
    Done station.

End Handlers.

(** [DoReportDataOk].  [operationalRateSet_size] is the value of
    [station->m_state->m_operationalRateSet.size ()], a [size_t]; the
    subtraction [size () - 1] is done in [size_t] and [m_rate] is widened
    for the comparison.  The three signal arguments are only logged. *)
Definition DoReportDataOk (this : members) (operationalRateSet_size : Z)
           (st : ArfWifiRemoteStation) : ArfWifiRemoteStation :=
  let station := st in
  let station := set_m_timer (to_uint32 (m_timer station + 1)) station in
  let station := set_m_success (to_uint32 (m_success station + 1)) station in
  let station := set_m_failed 0 station in
  let station := set_m_recovery false station in
  let station := set_m_retry 0 station in
  if ((m_success station =? m_successThreshold this)
      || (m_timer station =? m_timerThreshold this))
     && (m_rate station <? to_size_t (operationalRateSet_size - 1))
  then
    let station := set_m_rate (to_uint32 (m_rate station + 1)) station in
    let station := set_m_timer 0 station in
    let station := set_m_success 0 station in
    let station := set_m_recovery true station in
    station
  else station.

(** [DoReportRtsFailed], [DoReportRtsOk], [DoReportRxOk],
    [DoReportFinalRtsFailed], [DoReportFinalDataFailed]: the bodies only
    log, the station is not written. *)
Definition DoReportRtsFailed (station : ArfWifiRemoteStation) := station.
Definition DoReportRtsOk (station : ArfWifiRemoteStation) := station.
Definition DoReportRxOk (station : ArfWifiRemoteStation) := station.
Definition DoReportFinalRtsFailed (station : ArfWifiRemoteStation) := station.
Definition DoReportFinalDataFailed (station : ArfWifiRemoteStation) := station.

(** [IsLowLatency]. *)
Definition IsLowLatency (this : members) : bool := true.

(** [SetHtSupported], [SetVhtSupported], [SetHeSupported]: no member is
    written; the call either returns or stops the program. *)
Definition SetHtSupported (enable : bool) (this : members) : outcome members :=
  if enable
  then NS_FATAL_ERROR "WifiRemoteStationManager selected does not support HT rates"
  else Done this.

Definition SetVhtSupported (enable : bool) (this : members) : outcome members :=
  if enable
  then NS_FATAL_ERROR "WifiRemoteStationManager selected does not support VHT rates"
  else Done this.

Definition SetHeSupported (enable : bool) (this : members) : outcome members :=
  if enable
  then NS_FATAL_ERROR "WifiRemoteStationManager selected does not support HE rates"
  else Done this.

Definition set_m_currentRate (v : Z) (this : members) : members :=
  mkManager (m_timerThreshold this) (m_successThreshold this) v.

(** [DoGetDataTxVector]: returns the vector and the manager, whose traced
    [m_currentRate] the call may write. *)
Definition DoGetDataTxVector (B : WifiRemoteStationManager) (this : members)
           (base : WifiRemoteStation B) (st : ArfWifiRemoteStation)
  : WifiTxVector B * members :=
  let station := st in
  let channelWidth := GetChannelWidth B base in
  let channelWidth :=
    if (20 <? channelWidth) && negb (channelWidth =? 22)
    then 20   (* avoid to use legacy rate adaptation algorithms for IEEE 802.11n/ac *)
    else channelWidth in
  let mode := GetSupported B base (m_rate station) in
  let this :=
    if negb (m_currentRate this =? GetDataRate B mode channelWidth)
    then set_m_currentRate (GetDataRate B mode channelWidth) this
    else this in
  (mkTxVector mode (GetDefaultTxPowerLevel B) (GetLongRetryCount B base)
              (GetPreambleForTransmission B mode (GetAddress B base))
              800 1 1 0 channelWidth (GetAggregation B base) false,
   this).

(** [DoGetRtsTxVector]. *)
Definition DoGetRtsTxVector (B : WifiRemoteStationManager) (this : members)
           (base : WifiRemoteStation B) (st : ArfWifiRemoteStation)
  : WifiTxVector B :=
  let channelWidth := GetChannelWidth B base in
  let channelWidth :=
    if (20 <? channelWidth) && negb (channelWidth =? 22)
    then 20
    else channelWidth in
  let mode :=
    if Bool.eqb (GetUseNonErpProtection B) false
    then GetSupported B base 0
    else GetNonErpSupported B base 0 in
  mkTxVector mode (GetDefaultTxPowerLevel B) (GetLongRetryCount B base)
             (GetPreambleForTransmission B mode (GetAddress B base))
             800 1 1 0 channelWidth (GetAggregation B base) false.

End ArfWifiManager.

(** ** Sequences of reports *)

Import Station.
Module M := ArfWifiManager.

(** The outcome reports of the link layer; only the first two write the
    station. *)
Inductive report : Type :=
| DataFailed
| DataOk
| RtsFailed
| RtsOk
| RxOk
| FinalRtsFailed
| FinalDataFailed.

Section Driver.

Variable NS3_ASSERT_ENABLE : bool.

(** One call of the link layer into the manager. *)
Definition deliver (this : M.members) (nRates : Z) (r : report)
           (st : ArfWifiRemoteStation) : outcome ArfWifiRemoteStation :=
  match r with
  | DataFailed => M.DoReportDataFailed NS3_ASSERT_ENABLE st
  | DataOk => Done (M.DoReportDataOk this nRates st)
  | RtsFailed => Done (M.DoReportRtsFailed st)
  | RtsOk => Done (M.DoReportRtsOk st)
  | RxOk => Done (M.DoReportRxOk st)
  | FinalRtsFailed => Done (M.DoReportFinalRtsFailed st)
  | FinalDataFailed => Done (M.DoReportFinalDataFailed st)
  end.

(** A finite sequence of calls, oldest first. *)
Fixpoint deliver_all (this : M.members) (nRates : Z) (rs : list report)
         (st : ArfWifiRemoteStation) : outcome ArfWifiRemoteStation :=
  match rs with
  | [] => Done st
  | r :: rs' => st' <- deliver this nRates r st ;; deliver_all this nRates rs' st'
  end.

(** States a station can be in: created by some manager, then driven by
    reports, the manager's attributes being free to change between calls. *)
Inductive reachable (nRates : Z) : ArfWifiRemoteStation -> Prop :=
| reachable_create (this : M.members) :
    reachable nRates (M.DoCreateStation this)
| reachable_report (this : M.members) (r : report) (st st' : ArfWifiRemoteStation) :
    reachable nRates st ->
    deliver this nRates r st = Done st' ->
    reachable nRates st'.

End Driver.

(** The guard of the rate increase, as [DoReportDataOk] evaluates it after
    it has updated the counters of [st]. *)
Definition increase_guard (this : M.members) (nRates : Z)
           (st : ArfWifiRemoteStation) : bool :=
  ((to_uint32 (m_success st + 1) =? M.m_successThreshold this)
   || (to_uint32 (m_timer st + 1) =? M.m_timerThreshold this))
  && (m_rate st <? to_size_t (nRates - 1)).

(** A rate set that is not empty and that a [uint32_t] index can address. *)
Definition addressable (nRates : Z) : Prop := 1 <= nRates <= uint32_modulus.

(** The rate index is a valid position of a rate set of [nRates] entries. *)
Definition rate_in_range (nRates : Z) (st : ArfWifiRemoteStation) : Prop :=
  0 <= m_rate st < nRates /\ is_uint32 (m_rate st).

(** The first positive count at which a 32-bit counter started from 0
    equals the threshold [x]: [x] itself, or a full turn when [x = 0]. *)
Definition first_hit (x : Z) : Z := if x =? 0 then uint32_modulus else x.

(** Number of data-ok reports between two rate increases when no failure
    comes in between. *)
Definition climb_period (this : M.members) : Z :=
  Z.min (first_hit (M.m_successThreshold this))
        (first_hit (M.m_timerThreshold this)).

(** Nine successes, one failure, four successes, one failure: the second
    failure is the first of its streak, so it does not reset the timer,
    and it is the fifteenth report since the timer was last cleared. *)
Definition timer_overrun_reports : list report :=
  repeat DataOk 9 ++ [DataFailed] ++ repeat DataOk 4 ++ [DataFailed].

(** Reports that write the station. *)
Definition writes_station (r : report) : bool :=
  match r with
  | DataFailed | DataOk => true
  | _ => false
  end.

(** No data failure follows another one without a data-ok report in
    between; [after_failure] tells whether the last data report before
    [rs] was a failure. *)
Fixpoint isolated_failures (after_failure : bool) (rs : list report) : bool :=
  match rs with
  | [] => true
  | DataFailed :: rs' => negb after_failure && isolated_failures true rs'
  | DataOk :: rs' => isolated_failures false rs'
  | _ :: rs' => isolated_failures after_failure rs'
  end.

(** An instance of the base-class interface to run the queries on: the
    base subobject is the channel width of the station, a mode is its
    data rate in Mb/s, the rate sets are 6, 12, 18, ... and 1, 2, 3, ... *)
Definition sample_base : WifiRemoteStationManager := {|
  WifiRemoteStation := Z;
  WifiMode := Z;
  WifiPreamble := bool;
  Mac48Address := unit;
  GetChannelWidth := fun w => w;
  GetSupported := fun _ i => 6 * (i + 1);
  GetNonErpSupported := fun _ i => i + 1;
  GetDataRate := fun mode width => mode * width;
  GetDefaultTxPowerLevel := 0;
  GetLongRetryCount := fun _ => 7;
  GetPreambleForTransmission := fun mode _ => mode <? 6;
  GetAddress := fun _ => tt;
  GetAggregation := fun _ => false;
  GetUseNonErpProtection := false
|}.

(** * Proofs *)

Arguments to_uint32 : simpl never.
Arguments to_size_t : simpl never.

Ltac unfold_width :=
  unfold addressable, Station.well_formed, M.well_formed,
    is_uint32, is_size_t, to_uint32, to_size_t,
    uint32_modulus, size_t_modulus in *.

Ltac station_fields :=
  cbn [m_timer m_success m_failed m_recovery m_retry m_timerTimeout
       m_successThreshold m_rate
       set_m_timer set_m_success set_m_failed set_m_recovery set_m_retry
       set_m_timerTimeout set_m_successThreshold set_m_rate
       bind negb andb orb] in *.

Ltac width_arith :=
  unfold_width; station_fields;
  Z.to_euclidean_division_equations; lia.

Ltac split_tests :=
  repeat match goal with
    | |- context [?a =? ?b] => destruct (Z.eqb_spec a b)
    | |- context [?a <? ?b] => destruct (Z.ltb_spec a b)
    | |- context [?a <=? ?b] => destruct (Z.leb_spec a b)
    end.

(** ** Field-by-field description of the handlers *)

Lemma DoReportDataOk_fired this nRates st :
  increase_guard this nRates st = true ->
  M.DoReportDataOk this nRates st =
  mkStation 0 0 0 true 0 (m_timerTimeout st) (m_successThreshold st)
            (to_uint32 (m_rate st + 1)).
Proof.
  unfold increase_guard, M.DoReportDataOk. destruct st; station_fields.
  intros ->. reflexivity.
Qed.

Lemma DoReportDataOk_idle this nRates st :
  increase_guard this nRates st = false ->
  M.DoReportDataOk this nRates st =
  mkStation (to_uint32 (m_timer st + 1)) (to_uint32 (m_success st + 1)) 0 false 0
            (m_timerTimeout st) (m_successThreshold st) (m_rate st).
Proof.
  unfold increase_guard, M.DoReportDataOk. destruct st; station_fields.
  intros ->. reflexivity.
Qed.

Lemma increase_guard_headroom this nRates st :
  increase_guard this nRates st = true -> m_rate st < to_size_t (nRates - 1).
Proof.
  unfold increase_guard. intros H.
  apply andb_prop in H as [_ H]. now apply Z.ltb_lt.
Qed.

Lemma DoReportDataFailed_rate_cases e st st' :
  Station.well_formed st ->
  M.DoReportDataFailed e st = Done st' ->
  m_rate st' = m_rate st \/ (0 < m_rate st /\ m_rate st' = m_rate st - 1).
Proof.
  unfold M.DoReportDataFailed, M.NS_ASSERT.
  destruct st as [t s f r y tt sth rate]; station_fields. intros Hwf.
  destruct r, e; split_tests; station_fields; intros Hret;
    inversion Hret; subst; station_fields;
    try (left; reflexivity); right; width_arith.
Qed.

Lemma DoReportDataOk_rate_cases this nRates st :
  Station.well_formed st ->
  addressable nRates ->
  m_rate (M.DoReportDataOk this nRates st) = m_rate st \/
  (m_rate st < nRates - 1 /\
   m_rate (M.DoReportDataOk this nRates st) = m_rate st + 1).
Proof.
  intros Hwf Hn. destruct (increase_guard this nRates st) eqn:Hg.
  - pose proof (increase_guard_headroom _ _ _ Hg) as Hroom.
    rewrite (DoReportDataOk_fired _ _ _ Hg). right. width_arith.
  - rewrite (DoReportDataOk_idle _ _ _ Hg). left. reflexivity.
Qed.

(** ** The rate index stays inside the rate set *)

Lemma rate_in_range_create this nRates :
  1 <= nRates -> rate_in_range nRates (M.DoCreateStation this).
Proof. intros Hn. unfold rate_in_range. cbn. unfold_width. lia. Qed.

Lemma rate_in_range_ok this nRates st :
  1 <= nRates < size_t_modulus ->
  rate_in_range nRates st ->
  rate_in_range nRates (M.DoReportDataOk this nRates st).
Proof.
  intros Hn [Hr Hu]. unfold rate_in_range.
  destruct (increase_guard this nRates st) eqn:Hg.
  - pose proof (increase_guard_headroom _ _ _ Hg) as Hroom.
    rewrite (DoReportDataOk_fired _ _ _ Hg). width_arith.
  - rewrite (DoReportDataOk_idle _ _ _ Hg). cbn. auto.
Qed.

Lemma rate_in_range_failed e nRates st st' :
  rate_in_range nRates st ->
  M.DoReportDataFailed e st = Done st' ->
  rate_in_range nRates st'.
Proof.
  unfold M.DoReportDataFailed, M.NS_ASSERT, rate_in_range.
  destruct st as [t s f r y tt sth rate]; station_fields. intros Hinv.
  destruct r, e; split_tests; station_fields; intros Hret;
    inversion Hret; subst; station_fields; try assumption; width_arith.
Qed.

Lemma rate_in_range_deliver e this nRates r st st' :
  1 <= nRates < size_t_modulus ->
  rate_in_range nRates st ->
  deliver e this nRates r st = Done st' ->
  rate_in_range nRates st'.
Proof.
  intros Hn Hinv. destruct r; cbn [deliver]; intros Hret;
    try (inversion Hret; subst; exact Hinv).
  - eapply rate_in_range_failed; eassumption.
  - inversion Hret; subst. now apply rate_in_range_ok.
Qed.

Lemma deliver_all_reachable e this nRates rs :
  forall st st',
    reachable e nRates st ->
    deliver_all e this nRates rs st = Done st' ->
    reachable e nRates st'.
Proof.
  induction rs as [|r rs IH]; intros st st' Hreach; cbn [deliver_all].
  - intros Hret. inversion Hret; subst. assumption.
  - destruct (deliver e this nRates r st) as [st1|msg] eqn:Hstep; cbn [bind].
    + apply IH. eapply reachable_report; eassumption.
    + discriminate.
Qed.

Lemma reachable_rate_in_range e nRates st :
  1 <= nRates < size_t_modulus ->
  reachable e nRates st -> rate_in_range nRates st.
Proof.
  intros Hn Hreach. induction Hreach as [this|this r st st' _ IH Hstep].
  - apply rate_in_range_create. lia.
  - eapply rate_in_range_deliver; eassumption.
Qed.

(** A report only aborts on the assertion, that is when the retry counter
    wraps around; below that, and in builds without assertions, every
    report returns. *)
Lemma DoReportDataFailed_returns e st :
  Station.well_formed st ->
  e = false \/ m_retry st < uint32_modulus - 1 ->
  exists st', M.DoReportDataFailed e st = Done st'.
Proof.
  unfold M.DoReportDataFailed, M.NS_ASSERT.
  destruct st as [t s f r y tt sth rate]; station_fields. intros Hwf He.
  destruct e.
  - destruct He as [He|He]; [discriminate|].
    destruct (Z.leb_spec 1 (to_uint32 (y + 1))) as [_|Hlt];
      [destruct r; station_fields; eauto | exfalso; width_arith].
  - destruct r; station_fields; eauto.
Qed.

(** C1. Whatever the build and whatever the manager's attributes, a station
    made by [DoCreateStation] and driven by any finite sequence of
    data-failed and data-ok reports (the logging-only reports may be mixed
    in) against a rate set of [nRates >= 1] entries keeps
    [0 <= m_rate < nRates] in every state it reaches.  The decrement is
    guarded (a failed report at rate 0 leaves the rate at 0) and so is the
    increment (a data-ok report at [m_rate >= nRates - 1] leaves the rate
    where it is). *)
Theorem rate_index_within_rate_set (e : bool) (nRates : Z) :
  1 <= nRates < size_t_modulus ->
  (forall st, reachable e nRates st -> 0 <= m_rate st < nRates) /\
  (forall this rs st,
      deliver_all e this nRates rs (M.DoCreateStation this) = Done st ->
      0 <= m_rate st < nRates) /\
  (forall st st',
      M.DoReportDataFailed e st = Done st' -> m_rate st = 0 -> m_rate st' = 0) /\
  (forall this st,
      nRates - 1 <= m_rate st ->
      m_rate (M.DoReportDataOk this nRates st) = m_rate st).
Proof.
  intros Hn. split; [|split; [|split]].
  - intros st Hreach. now apply (reachable_rate_in_range e nRates st Hn).
  - intros this rs st Hret.
    apply (reachable_rate_in_range e nRates st Hn).
    eapply deliver_all_reachable; [apply reachable_create | eassumption].
  - intros st st'. unfold M.DoReportDataFailed, M.NS_ASSERT.
    destruct st as [t s f r y tt sth rate]; station_fields.
    intros Hret ->. revert Hret.
    destruct r, e; split_tests; station_fields; intros Hret;
      inversion Hret; subst; station_fields; try reflexivity; congruence.
  - intros this st Htop.
    destruct (increase_guard this nRates st) eqn:Hg.
    + pose proof (increase_guard_headroom _ _ _ Hg) as Hroom.
      exfalso. width_arith.
    + rewrite (DoReportDataOk_idle _ _ _ Hg). reflexivity.
Qed.

Lemma rate_index_within_rate_set_witness :
  1 <= 4 < size_t_modulus /\
  0 <= m_rate (M.DoReportDataOk M.default_members 4
                 (M.DoCreateStation M.default_members)) < 4.
Proof.
  assert (Hn : 1 <= 4 < size_t_modulus) by (unfold size_t_modulus; lia).
  split; [exact Hn|].
  apply (proj1 (proj2 (rate_index_within_rate_set true 4 Hn))
           M.default_members [DataOk]).
  reflexivity.
Defined.

(** C10. One data-failed or data-ok report moves the rate index by at most
    one position: afterwards it is the old value, the old value minus one
    or the old value plus one. *)
Theorem report_moves_rate_by_at_most_one (e : bool) (this : M.members)
        (nRates : Z) (r : report) (st st' : ArfWifiRemoteStation) :
  Station.well_formed st ->
  addressable nRates ->
  deliver e this nRates r st = Done st' ->
  m_rate st' = m_rate st \/ m_rate st' = m_rate st - 1 \/
  m_rate st' = m_rate st + 1.
Proof.
  intros Hwf Hn. destruct r; cbn [deliver]; intros Hret;
    try (inversion Hret; subst; left; reflexivity).
  - destruct (DoReportDataFailed_rate_cases e st st' Hwf Hret) as [H|[_ H]];
      auto.
  - inversion Hret; subst.
    destruct (DoReportDataOk_rate_cases this nRates st Hwf Hn) as [H|[_ H]];
      auto.
Qed.

Lemma report_moves_rate_by_at_most_one_witness :
  let st := M.DoCreateStation M.default_members in
  let st' := M.DoReportDataOk M.default_members 4 st in
  m_rate st' = m_rate st \/ m_rate st' = m_rate st - 1 \/
  m_rate st' = m_rate st + 1.
Proof.
  apply (report_moves_rate_by_at_most_one true M.default_members 4 DataOk).
  - unfold Station.well_formed, is_uint32, uint32_modulus; simpl; lia.
  - unfold addressable, uint32_modulus; lia.
  - reflexivity.
Defined.

(** ** The high-throughput setters *)

(** C7. Each of [SetHtSupported], [SetVhtSupported] and [SetHeSupported]
    stops the program when called with [true], and returns with the
    manager untouched when called with [false]. *)
Theorem high_throughput_setters_reject (this : M.members) :
  M.SetHtSupported true this =
    Aborted "WifiRemoteStationManager selected does not support HT rates" /\
  M.SetVhtSupported true this =
    Aborted "WifiRemoteStationManager selected does not support VHT rates" /\
  M.SetHeSupported true this =
    Aborted "WifiRemoteStationManager selected does not support HE rates" /\
  M.SetHtSupported false this = Done this /\
  M.SetVhtSupported false this = Done this /\
  M.SetHeSupported false this = Done this.
Proof.
  unfold M.SetHtSupported, M.SetVhtSupported, M.SetHeSupported, NS_FATAL_ERROR.
  repeat split.
Qed.

(** ** Failed reports, branch by branch *)

Lemma to_uint32_succ (x : Z) :
  is_uint32 x -> x < uint32_modulus - 1 -> to_uint32 (x + 1) = x + 1.
Proof. intros; width_arith. Qed.

Lemma to_uint32_pred (x : Z) :
  is_uint32 x -> 0 < x -> to_uint32 (x - 1) = x - 1.
Proof. intros; width_arith. Qed.

Lemma to_uint32_is_uint32 (x : Z) : is_uint32 (to_uint32 x).
Proof. width_arith. Qed.

Lemma DoReportDataFailed_recovery e st :
  Station.well_formed st ->
  m_recovery st = true ->
  m_retry st < uint32_modulus - 1 ->
  M.DoReportDataFailed e st =
  Done (mkStation 0 0 (to_uint32 (m_failed st + 1)) true (m_retry st + 1)
          (m_timerTimeout st) (m_successThreshold st)
          (if (m_retry st =? 0) && (0 <? m_rate st)
           then m_rate st - 1 else m_rate st)).
Proof.
  unfold M.DoReportDataFailed, M.NS_ASSERT.
  destruct st as [t s f r y tt sth rate]; station_fields.
  intros Hwf -> Hy.
  assert (Hy' : to_uint32 (y + 1) = y + 1) by width_arith.
  rewrite Hy'.
  destruct e; split_tests; station_fields; try reflexivity;
    try (exfalso; width_arith);
    rewrite to_uint32_pred by width_arith; reflexivity.
Qed.

Lemma DoReportDataFailed_normal e st :
  Station.well_formed st ->
  m_recovery st = false ->
  m_retry st < uint32_modulus - 1 ->
  M.DoReportDataFailed e st =
  Done (mkStation (if m_retry st =? 0 then to_uint32 (m_timer st + 1) else 0)
          0 (to_uint32 (m_failed st + 1)) false (m_retry st + 1)
          (m_timerTimeout st) (m_successThreshold st)
          (if Z.even (m_retry st + 1) && (0 <? m_rate st)
           then m_rate st - 1 else m_rate st)).
Proof.
  unfold M.DoReportDataFailed, M.NS_ASSERT.
  destruct st as [t s f r y tt sth rate]; station_fields.
  intros Hwf -> Hy.
  assert (Hy' : to_uint32 (y + 1) = y + 1) by width_arith.
  rewrite Hy'.
  assert (Hpar : (to_uint32 (y + 1 - 1) mod 2 =? 1) = Z.even (y + 1)).
  { rewrite Zeven_mod. destruct (Z.eqb_spec ((y + 1) mod 2) 0);
      destruct (Z.eqb_spec (to_uint32 (y + 1 - 1) mod 2) 1);
      try reflexivity; exfalso; width_arith. }
  rewrite Hpar.
  destruct e, (Z.even (y + 1)); split_tests; station_fields;
    try reflexivity; try (exfalso; width_arith);
    rewrite to_uint32_pred by width_arith; reflexivity.
Qed.

Lemma DoReportDataFailed_well_formed e st st' :
  Station.well_formed st ->
  M.DoReportDataFailed e st = Done st' ->
  Station.well_formed st'.
Proof.
  unfold M.DoReportDataFailed, M.NS_ASSERT.
  destruct st as [t s f r y tt sth rate]; station_fields. intros Hwf.
  destruct r, e; split_tests; station_fields; intros Hret;
    inversion Hret; subst; width_arith.
Qed.

Lemma DoReportDataOk_well_formed this nRates st :
  Station.well_formed st ->
  Station.well_formed (M.DoReportDataOk this nRates st).
Proof.
  intros Hwf. destruct (increase_guard this nRates st) eqn:Hg.
  - rewrite (DoReportDataOk_fired _ _ _ Hg). width_arith.
  - rewrite (DoReportDataOk_idle _ _ _ Hg). width_arith.
Qed.

Lemma DoReportDataFailed_normal_parity e st st' :
  Station.well_formed st ->
  m_recovery st = false ->
  M.DoReportDataFailed e st = Done st' ->
  m_retry st' = to_uint32 (m_retry st + 1) /\
  m_recovery st' = false /\
  m_rate st' = (if Z.even (m_retry st') && (0 <? m_rate st)
                then m_rate st - 1 else m_rate st).
Proof.
  unfold M.DoReportDataFailed, M.NS_ASSERT.
  destruct st as [t s f r y tt sth rate]; station_fields.
  intros Hwf -> Hret.
  assert (Hpar : (to_uint32 (to_uint32 (y + 1) - 1) mod 2 =? 1)
                 = Z.even (to_uint32 (y + 1))).
  { rewrite Zeven_mod. destruct (Z.eqb_spec (to_uint32 (y + 1) mod 2) 0);
      destruct (Z.eqb_spec (to_uint32 (to_uint32 (y + 1) - 1) mod 2) 1);
      try reflexivity; exfalso; width_arith. }
  rewrite Hpar in Hret. revert Hret.
  destruct e, (Z.even (to_uint32 (y + 1))) eqn:Hev; split_tests;
    station_fields; intros Hret; inversion Hret; subst; station_fields;
    rewrite ?Hev; station_fields; repeat split; try reflexivity;
    try (exfalso; width_arith);
    rewrite to_uint32_pred by width_arith; reflexivity.
Qed.

(** ** Fallback in recovery and in normal mode *)

(** C3, as the code has it.  A station in recovery ([m_recovery = true],
    [m_retry = 0]) with [m_rate > 0] that receives one data-failed report
    comes back from the call with [m_rate] one lower and [m_timer = 0];
    one failure is enough.  The recovery flag is not touched by the call:
    it is still [true] afterwards. *)
Theorem recovery_failure_falls_back_at_once (e : bool)
        (st : ArfWifiRemoteStation) :
  Station.well_formed st ->
  m_recovery st = true ->
  m_retry st = 0 ->
  0 < m_rate st ->
  exists st',
    M.DoReportDataFailed e st = Done st' /\
    m_rate st' = m_rate st - 1 /\
    m_timer st' = 0 /\
    m_retry st' = 1 /\
    m_recovery st' = true.
Proof.
  intros Hwf Hrec Hretry Hrate.
  eexists. split.
  - apply DoReportDataFailed_recovery; try assumption.
    rewrite Hretry. unfold uint32_modulus. lia.
  - rewrite Hretry. station_fields.
    destruct (Z.ltb_spec 0 (m_rate st)); [|lia].
    cbn. repeat split; reflexivity.
Qed.

Lemma recovery_failure_falls_back_at_once_witness :
  exists st',
    M.DoReportDataFailed true (mkStation 0 0 0 true 0 15 10 3) = Done st' /\
    m_rate st' = 2 /\ m_timer st' = 0 /\ m_retry st' = 1 /\
    m_recovery st' = true.
Proof.
  apply (recovery_failure_falls_back_at_once true
           (mkStation 0 0 0 true 0 15 10 3)).
  - unfold Station.well_formed, is_uint32, uint32_modulus; simpl; lia.
  - reflexivity.
  - reflexivity.
  - simpl; lia.
Defined.

(** The station just raised from rate 2 to rate 3 is in recovery with
    [m_rate > 0]; the failed report lowers the rate and resets the timer,
    yet the station that comes back is not in normal mode. *)
Lemma recovery_flag_survives_failure :
  let st := mkStation 0 0 0 true 0 15 10 3 in
  Station.well_formed st /\ m_recovery st = true /\ m_retry st = 0 /\
  0 < m_rate st /\
  ~ (exists st',
        M.DoReportDataFailed true st = Done st' /\
        m_rate st' = m_rate st - 1 /\
        m_timer st' = 0 /\
        m_recovery st' = false).
Proof.
  cbv zeta. repeat split; try reflexivity; try discriminate.
  intros (st' & Hret & _ & _ & Hflag).
  vm_compute in Hret. inversion Hret; subst. discriminate.
Qed.

(** C4. In normal mode ([m_recovery = false]) at [m_retry = 0] and
    [m_rate = 2], the first data-failed report leaves the rate at 2 and the
    second one in a row, with which [m_retry] reaches 2, lowers it to 1 and
    resets the timer.  In general a failed report in normal mode lowers the
    rate exactly when the retry count it has just reached is even and the
    rate was above 0; below the wrap-around of the counter that count is
    the old one plus one, so the even counts are 2, 4, 6 and so on. *)
Theorem normal_mode_falls_back_on_even_retry (e : bool)
        (st : ArfWifiRemoteStation) :
  Station.well_formed st ->
  m_recovery st = false ->
  (m_retry st = 0 -> m_rate st = 2 ->
   exists st1 st2,
     M.DoReportDataFailed e st = Done st1 /\
     m_retry st1 = 1 /\ m_rate st1 = 2 /\
     M.DoReportDataFailed e st1 = Done st2 /\
     m_retry st2 = 2 /\ m_rate st2 = 1 /\ m_timer st2 = 0) /\
  (forall st',
     M.DoReportDataFailed e st = Done st' ->
     (m_rate st' = m_rate st - 1 <->
      Z.even (m_retry st') = true /\ 0 < m_rate st) /\
     (m_rate st' = m_rate st \/ m_rate st' = m_rate st - 1)) /\
  (m_retry st < uint32_modulus - 1 ->
   exists st',
     M.DoReportDataFailed e st = Done st' /\
     m_retry st' = m_retry st + 1 /\
     (m_timer st' = 0 <-> 2 <= m_retry st' \/ to_uint32 (m_timer st + 1) = 0)).
Proof.
  intros Hwf Hnormal. split; [|split].
  - intros Hretry Hrate.
    assert (H1 : m_retry st < uint32_modulus - 1)
      by (rewrite Hretry; unfold uint32_modulus; lia).
    pose proof (DoReportDataFailed_normal e st Hwf Hnormal H1) as Hfirst.
    rewrite Hretry, Hrate in Hfirst. cbn in Hfirst.
    eexists. eexists. split; [exact Hfirst|].
    split; [reflexivity|]. split; [reflexivity|].
    split.
    + apply DoReportDataFailed_normal; station_fields.
      * pose proof (DoReportDataFailed_well_formed e _ _ Hwf Hfirst).
        assumption.
      * reflexivity.
      * unfold uint32_modulus. lia.
    + cbn. repeat split; reflexivity.
  - intros st' Hret.
    destruct (DoReportDataFailed_normal_parity e st st' Hwf Hnormal Hret)
      as (_ & _ & Hrate).
    destruct (Z.even (m_retry st')), (Z.ltb_spec 0 (m_rate st));
      cbn [andb] in Hrate; rewrite Hrate.
    all: split; [split|];
      [ intros Heq; first [lia | split; [reflexivity | assumption]]
      | intros [Hev Hpos]; first [reflexivity | discriminate | lia]
      | first [left; reflexivity | right; reflexivity] ].
  - intros Hretry. eexists. split.
    + apply DoReportDataFailed_normal; assumption.
    + station_fields. split; [reflexivity|].
      assert (0 <= m_retry st) by (unfold_width; lia).
      destruct (Z.eqb_spec (m_retry st) 0) as [Hz|Hz]; split; intros Ht.
      * right. exact Ht.
      * destruct Ht as [Ht|Ht]; [lia|exact Ht].
      * left. lia.
      * reflexivity.
Qed.

Lemma normal_mode_falls_back_on_even_retry_witness :
  exists st1 st2,
    M.DoReportDataFailed true (mkStation 0 0 0 false 0 15 10 2) = Done st1 /\
    m_retry st1 = 1 /\ m_rate st1 = 2 /\
    M.DoReportDataFailed true st1 = Done st2 /\
    m_retry st2 = 2 /\ m_rate st2 = 1 /\ m_timer st2 = 0.
Proof.
  apply (proj1 (normal_mode_falls_back_on_even_retry true
                  (mkStation 0 0 0 false 0 15 10 2)
                  ltac:(unfold Station.well_formed, is_uint32, uint32_modulus;
                        simpl; lia)
                  eq_refl)); reflexivity.
Defined.

(** ** A failure streak inside recovery *)

Lemma DoReportDataFailed_keeps_recovery e st st' :
  M.DoReportDataFailed e st = Done st' -> m_recovery st' = m_recovery st.
Proof.
  unfold M.DoReportDataFailed, M.NS_ASSERT.
  destruct st as [t s f r y tt sth rate]; station_fields.
  destruct r, e; split_tests; station_fields; intros Hret;
    inversion Hret; subst; reflexivity.
Qed.

(** [k] more failures after the first one of the streak. *)
Lemma recovery_streak e this nRates (k : nat) :
  forall st,
    Station.well_formed st ->
    m_recovery st = true ->
    1 <= m_retry st ->
    m_retry st + Z.of_nat k < uint32_modulus ->
    exists st',
      deliver_all e this nRates (repeat DataFailed k) st = Done st' /\
      m_recovery st' = true /\
      m_rate st' = m_rate st /\
      m_retry st' = m_retry st + Z.of_nat k /\
      (0 < Z.of_nat k -> m_timer st' = 0).
Proof.
  induction k as [|k IH]; intros st Hwf Hrec Hlo Hhi.
  - exists st. cbn [repeat deliver_all]. repeat split; try lia; assumption.
  - cbn [repeat deliver_all deliver].
    assert (Hy : m_retry st < uint32_modulus - 1) by lia.
    pose proof (DoReportDataFailed_recovery e st Hwf Hrec Hy) as Hstep.
    destruct (Z.eqb_spec (m_retry st) 0) as [Hz|_]; [lia|].
    cbn [andb] in Hstep. rewrite Hstep. cbn [bind].
    pose proof (DoReportDataFailed_well_formed e _ _ Hwf Hstep) as Hwf'.
    destruct (IH _ Hwf' eq_refl) as (st' & Hrun & Hrec' & Hrate & Hretry & Htimer).
    + station_fields. lia.
    + station_fields. lia.
    + exists st'. revert Hrate Hretry Htimer. station_fields.
      intros Hrate Hretry Htimer.
      split; [exact Hrun|]. split; [exact Hrec'|]. split; [exact Hrate|].
      split; [lia|]. intros _.
      destruct k as [|k'].
      * cbn [repeat deliver_all] in Hrun. inversion Hrun; subst. reflexivity.
      * apply Htimer. lia.
Qed.

(** C8. A data-failed report never changes the recovery flag.  A station
    in recovery stays in recovery across the report, so each further
    failure of the same streak (the retry count reaching 2 or more) runs
    the recovery branch: the rate index stays where it is and the timer is
    reset to 0, for a streak of any length.  Of the two reports only the
    data-ok one can take the flag from [true] to [false], and it does so
    whenever it does not raise the rate. *)
Theorem recovery_outlives_failures (e : bool) (st : ArfWifiRemoteStation) :
  Station.well_formed st ->
  (forall st', M.DoReportDataFailed e st = Done st' ->
               m_recovery st' = m_recovery st) /\
  (m_recovery st = true ->
   1 <= m_retry st < uint32_modulus - 1 ->
   exists st',
     M.DoReportDataFailed e st = Done st' /\
     m_recovery st' = true /\
     m_retry st' = m_retry st + 1 /\
     m_rate st' = m_rate st /\
     m_timer st' = 0) /\
  (forall this nRates (k : nat),
     m_recovery st = true ->
     1 <= m_retry st ->
     m_retry st + Z.of_nat (S k) < uint32_modulus ->
     exists st',
       deliver_all e this nRates (repeat DataFailed (S k)) st = Done st' /\
       m_recovery st' = true /\
       m_rate st' = m_rate st /\
       m_timer st' = 0) /\
  (forall this nRates r st',
     m_recovery st = true ->
     deliver e this nRates r st = Done st' ->
     m_recovery st' = false ->
     r = DataOk) /\
  (forall this nRates,
     increase_guard this nRates st = false ->
     m_recovery (M.DoReportDataOk this nRates st) = false).
Proof.
  intros Hwf. split; [|split; [|split; [|split]]].
  - intros st'. apply DoReportDataFailed_keeps_recovery.
  - intros Hrec [Hlo Hhi].
    pose proof (DoReportDataFailed_recovery e st Hwf Hrec Hhi) as Hstep.
    destruct (Z.eqb_spec (m_retry st) 0) as [Hz|_]; [lia|].
    cbn [andb] in Hstep. eexists. split; [exact Hstep|].
    repeat split; reflexivity.
  - intros this nRates k Hrec Hlo Hhi.
    destruct (recovery_streak e this nRates (S k) st Hwf Hrec Hlo Hhi)
      as (st' & Hrun & Hrec' & Hrate & _ & Htimer).
    exists st'. repeat split; try assumption. apply Htimer. lia.
  - intros this nRates r st' Hrec Hret Hflag.
    destruct r; cbn [deliver] in Hret; try reflexivity;
      try (inversion Hret; subst; unfold M.DoReportRtsFailed, M.DoReportRtsOk,
             M.DoReportRxOk, M.DoReportFinalRtsFailed,
             M.DoReportFinalDataFailed in Hflag; congruence).
    apply DoReportDataFailed_keeps_recovery in Hret. congruence.
  - intros this nRates Hg. rewrite (DoReportDataOk_idle _ _ _ Hg). reflexivity.
Qed.

Lemma recovery_outlives_failures_witness :
  exists st',
    deliver_all true M.default_members 4 (repeat DataFailed 3)
                (mkStation 0 0 1 true 1 15 10 2) = Done st' /\
    m_recovery st' = true /\
    m_rate st' = 2 /\
    m_timer st' = 0.
Proof.
  apply (proj1 (proj2 (proj2 (recovery_outlives_failures true
                  (mkStation 0 0 1 true 1 15 10 2)
                  ltac:(unfold Station.well_formed, is_uint32, uint32_modulus;
                        simpl; lia))))
           M.default_members 4 2%nat).
  - reflexivity.
  - simpl; lia.
  - unfold uint32_modulus; simpl; lia.
Defined.

(** ** Success streaks *)

Lemma deliver_all_app e this nRates rs1 rs2 :
  forall st st1,
    deliver_all e this nRates rs1 st = Done st1 ->
    deliver_all e this nRates (rs1 ++ rs2) st =
    deliver_all e this nRates rs2 st1.
Proof.
  induction rs1 as [|r rs1 IH]; intros st st1; cbn [deliver_all app].
  - intros Hret. inversion Hret; subst. reflexivity.
  - destruct (deliver e this nRates r st) as [st0|msg]; cbn [bind].
    + apply IH.
    + discriminate.
Qed.

Lemma repeat_snoc {A : Type} (a : A) (k : nat) :
  repeat a (S k) = repeat a k ++ [a].
Proof. exact (repeat_cons k a). Qed.

(** [k] data-ok reports in a row during which neither counter meets its
    threshold: both counters advance by [k], the rate does not move. *)
Lemma ok_streak_idle e this nRates (k : nat) :
  forall st,
    Station.well_formed st ->
    m_success st + Z.of_nat k < uint32_modulus ->
    m_timer st + Z.of_nat k < uint32_modulus ->
    (forall j, 1 <= j <= Z.of_nat k ->
               m_success st + j <> M.m_successThreshold this /\
               m_timer st + j <> M.m_timerThreshold this) ->
    exists st',
      deliver_all e this nRates (repeat DataOk k) st = Done st' /\
      Station.well_formed st' /\
      m_success st' = m_success st + Z.of_nat k /\
      m_timer st' = m_timer st + Z.of_nat k /\
      m_rate st' = m_rate st.
Proof.
  induction k as [|k IH]; intros st Hwf Hs Ht Hmiss.
  - exists st. cbn [repeat deliver_all]. repeat split; try lia; apply Hwf.
  - cbn [repeat deliver_all deliver bind].
    assert (Hs1 : to_uint32 (m_success st + 1) = m_success st + 1)
      by (apply to_uint32_succ; [apply Hwf | lia]).
    assert (Ht1 : to_uint32 (m_timer st + 1) = m_timer st + 1)
      by (apply to_uint32_succ; [apply Hwf | lia]).
    assert (Hg : increase_guard this nRates st = false).
    { unfold increase_guard. rewrite Hs1, Ht1.
      destruct (Hmiss 1 ltac:(lia)) as [Hms Hmt].
      destruct (Z.eqb_spec (m_success st + 1) (M.m_successThreshold this));
        [contradiction|].
      destruct (Z.eqb_spec (m_timer st + 1) (M.m_timerThreshold this));
        [contradiction|].
      reflexivity. }
    pose proof (DoReportDataOk_well_formed this nRates st Hwf) as Hwf1.
    rewrite (DoReportDataOk_idle _ _ _ Hg) in *.
    rewrite Hs1, Ht1 in *.
    edestruct (IH _ Hwf1) as (st' & Hrun & Hwf' & Hs' & Ht' & Hr').
    + station_fields. lia.
    + station_fields. lia.
    + intros j Hj. station_fields.
      destruct (Hmiss (j + 1) ltac:(lia)) as [Hms Hmt]. lia.
    + exists st'. revert Hs' Ht' Hr'. station_fields. intros Hs' Ht' Hr'.
      repeat split; try assumption; try apply Hwf'; lia.
Qed.

(** C2, as the code has it.  Take a station whose thresholds are those of
    its manager, the success threshold being 10, in normal mode, with a
    success count of 0, a timer that leaves room for ten more reports
    before the timer threshold, and a rate below the top index.  Ten
    data-ok reports in a row raise the rate by one, on the tenth report
    and not before, and leave [m_success = 0], [m_timer = 0] and
    [m_recovery = true].  The success count at the start matters: the
    threshold is met on the report that brings [m_success] to 10. *)
Theorem ten_successes_raise_rate_once (e : bool) (this : M.members)
        (nRates : Z) (st : ArfWifiRemoteStation) :
  Station.well_formed st ->
  addressable nRates ->
  M.m_successThreshold this = m_successThreshold st ->
  M.m_timerThreshold this = m_timerTimeout st ->
  m_successThreshold st = 10 ->
  m_recovery st = false ->
  m_success st = 0 ->
  m_timer st + 10 <= m_timerTimeout st ->
  m_rate st < nRates - 1 ->
  (forall k : nat, (k <= 9)%nat ->
     exists stk,
       deliver_all e this nRates (repeat DataOk k) st = Done stk /\
       m_rate stk = m_rate st) /\
  (exists st',
     deliver_all e this nRates (repeat DataOk 10) st = Done st' /\
     m_rate st' = m_rate st + 1 /\
     m_success st' = 0 /\
     m_timer st' = 0 /\
     m_recovery st' = true).
Proof.
  intros Hwf Hn Hsame_s Hsame_t Hten Hnormal Hzero Hroom_t Hroom.
  assert (HT : M.m_successThreshold this = 10) by congruence.
  assert (Htimer : m_timer st + 10 <= M.m_timerThreshold this) by congruence.
  assert (Hcap : M.m_timerThreshold this < uint32_modulus)
    by (rewrite Hsame_t; apply Hwf).
  assert (Hidle : forall k : nat, (k <= 9)%nat ->
            exists stk,
              deliver_all e this nRates (repeat DataOk k) st = Done stk /\
              Station.well_formed stk /\
              m_success stk = m_success st + Z.of_nat k /\
              m_timer stk = m_timer st + Z.of_nat k /\
              m_rate stk = m_rate st).
  { intros k Hk. apply ok_streak_idle; try assumption.
    - unfold uint32_modulus. lia.
    - lia.
    - intros j Hj. lia. }
  split.
  - intros k Hk. destruct (Hidle k Hk) as (stk & Hrun & _ & _ & _ & Hrate).
    exists stk. split; assumption.
  - destruct (Hidle 9%nat (le_n _)) as (s9 & Hrun & Hwf9 & Hs9 & Ht9 & Hr9).
    rewrite (repeat_snoc DataOk 9).
    rewrite (deliver_all_app _ _ _ _ [DataOk] _ _ Hrun).
    cbn [deliver_all deliver bind].
    assert (Hg : increase_guard this nRates s9 = true).
    { unfold increase_guard. rewrite Hs9, Hzero, HT.
      replace (to_uint32 (0 + Z.of_nat 9 + 1)) with 10 by reflexivity.
      cbn [Z.eqb Pos.eqb orb andb].
      apply Z.ltb_lt. rewrite Hr9. unfold_width.
      rewrite Z.mod_small; lia. }
    rewrite (DoReportDataOk_fired _ _ _ Hg). eexists. split; [reflexivity|].
    station_fields. rewrite Hr9. repeat split.
    apply to_uint32_succ; [apply Hwf | unfold_width; lia].
Qed.

Lemma ten_successes_raise_rate_once_witness :
  exists st',
    deliver_all true M.default_members 4 (repeat DataOk 10)
                (mkStation 5 0 2 false 1 15 10 1) = Done st' /\
    m_rate st' = 1 + 1 /\ m_success st' = 0 /\ m_timer st' = 0 /\
    m_recovery st' = true.
Proof.
  apply (proj2 (ten_successes_raise_rate_once true M.default_members 4
                  (mkStation 5 0 2 false 1 15 10 1)
                  ltac:(unfold Station.well_formed, is_uint32, uint32_modulus;
                        simpl; lia)
                  ltac:(unfold addressable, uint32_modulus; lia)
                  eq_refl eq_refl eq_refl eq_refl eq_refl
                  ltac:(simpl; lia) ltac:(simpl; lia))).
Defined.

(** Three data-ok reports on a fresh station give a normal-mode station
    that counts three successes and meets every other condition; its tenth
    further report finds the rate raised long before (on the seventh) and
    the counters running again. *)
Lemma ten_successes_from_running_count :
  let this := M.default_members in
  let st := mkStation 3 3 0 false 0 15 10 0 in
  deliver_all true this 2 (repeat DataOk 3) (M.DoCreateStation this) = Done st /\
  Station.well_formed st /\
  M.m_successThreshold this = m_successThreshold st /\
  M.m_timerThreshold this = m_timerTimeout st /\
  m_successThreshold st = 10 /\
  m_recovery st = false /\
  m_timer st + 10 <= m_timerTimeout st /\
  m_rate st < 2 - 1 /\
  deliver_all true this 2 (repeat DataOk 7) st
    = Done (mkStation 0 0 0 true 0 15 10 1) /\
  deliver_all true this 2 (repeat DataOk 10) st
    = Done (mkStation 3 3 0 false 0 15 10 1) /\
  ~ (exists st',
        deliver_all true this 2 (repeat DataOk 10) st = Done st' /\
        m_rate st' = m_rate st + 1 /\
        m_success st' = 0 /\
        m_timer st' = 0 /\
        m_recovery st' = true).
Proof.
  cbv zeta.
  split; [reflexivity|].
  split; [unfold Station.well_formed, is_uint32, uint32_modulus; simpl; lia|].
  split; [reflexivity|]. split; [reflexivity|]. split; [reflexivity|].
  split; [reflexivity|].
  split; [simpl; lia|]. split; [simpl; lia|].
  split; [reflexivity|]. split; [reflexivity|].
  intros (st' & Hret & _ & Hs & _).
  vm_compute in Hret. inversion Hret; subst. discriminate.
Qed.

(** ** Climbing to the top of the rate set *)

Lemma DoCreateStation_fields this :
  M.DoCreateStation this =
  mkStation 0 0 0 false 0 (M.m_timerThreshold this)
            (M.m_successThreshold this) 0.
Proof. reflexivity. Qed.

Lemma climb_period_bounds this :
  M.well_formed this -> 1 <= climb_period this <= uint32_modulus.
Proof.
  unfold climb_period, first_hit. intros Hwf.
  split_tests; unfold_width; lia.
Qed.

Lemma climb_period_misses this j :
  M.well_formed this ->
  1 <= j < climb_period this ->
  j <> M.m_successThreshold this /\ j <> M.m_timerThreshold this.
Proof.
  unfold climb_period, first_hit. intros Hwf.
  split_tests; unfold_width; lia.
Qed.

Lemma climb_period_hits this :
  M.well_formed this ->
  to_uint32 (climb_period this) = M.m_successThreshold this \/
  to_uint32 (climb_period this) = M.m_timerThreshold this.
Proof.
  unfold climb_period, first_hit. intros Hwf.
  destruct (Z.eqb_spec (M.m_successThreshold this) 0),
           (Z.eqb_spec (M.m_timerThreshold this) 0);
    match goal with
    | |- context [Z.min ?a ?b] =>
        destruct (Z.min_spec a b) as [[Hlt Hmin]|[Hlt Hmin]]; rewrite Hmin
    end;
    first [left; width_arith | right; width_arith].
Qed.

(** One rate increase, starting from cleared counters. *)
Lemma climb_one e this nRates st :
  Station.well_formed st ->
  M.well_formed this ->
  addressable nRates ->
  m_success st = 0 ->
  m_timer st = 0 ->
  m_rate st < nRates - 1 ->
  exists st',
    deliver_all e this nRates
      (repeat DataOk (Z.to_nat (climb_period this))) st = Done st' /\
    Station.well_formed st' /\
    m_success st' = 0 /\ m_timer st' = 0 /\
    m_rate st' = m_rate st + 1.
Proof.
  intros Hwf Hthis Hn Hs Ht Hroom.
  pose proof (climb_period_bounds this Hthis) as Hp.
  set (p := climb_period this) in *.
  assert (Hsplit : Z.to_nat p = S (Z.to_nat (p - 1))) by lia.
  rewrite Hsplit, repeat_snoc.
  destruct (ok_streak_idle e this nRates (Z.to_nat (p - 1)) st Hwf)
    as (s1 & Hrun & Hwf1 & Hs1 & Ht1 & Hr1).
  - rewrite Hs. lia.
  - rewrite Ht. lia.
  - intros j Hj. rewrite Hs, Ht.
    apply (climb_period_misses this j Hthis). fold p. lia.
  - rewrite (deliver_all_app _ _ _ _ [DataOk] _ _ Hrun).
    cbn [deliver_all deliver bind].
    assert (Hg : increase_guard this nRates s1 = true).
    { unfold increase_guard. rewrite Hs1, Ht1, Hs, Ht.
      replace (0 + Z.of_nat (Z.to_nat (p - 1)) + 1) with p by lia.
      apply andb_true_intro. split.
      - apply orb_true_iff.
        destruct (climb_period_hits this Hthis) as [Hh|Hh]; fold p in Hh;
          [left|right]; now apply Z.eqb_eq.
      - apply Z.ltb_lt. rewrite Hr1. unfold_width.
        rewrite Z.mod_small; lia. }
    rewrite (DoReportDataOk_fired _ _ _ Hg). eexists. split; [reflexivity|].
    split.
    + pose proof (DoReportDataOk_well_formed this nRates s1 Hwf1) as Hw.
      rewrite (DoReportDataOk_fired _ _ _ Hg) in Hw. exact Hw.
    + station_fields. rewrite Hr1. repeat split.
      apply to_uint32_succ; [apply Hwf | unfold_width; lia].
Qed.

Lemma climb_many e this nRates (m : nat) :
  forall st,
    Station.well_formed st ->
    M.well_formed this ->
    addressable nRates ->
    m_success st = 0 ->
    m_timer st = 0 ->
    m_rate st + Z.of_nat m <= nRates - 1 ->
    exists rs st',
      deliver_all e this nRates rs st = Done st' /\
      Forall (fun r => r = DataOk) rs /\
      m_rate st' = m_rate st + Z.of_nat m.
Proof.
  induction m as [|m IH]; intros st Hwf Hthis Hn Hs Ht Hroom.
  - exists [], st. repeat split; [constructor | lia].
  - destruct (climb_one e this nRates st Hwf Hthis Hn Hs Ht ltac:(lia))
      as (s1 & Hrun1 & Hwf1 & Hs1 & Ht1 & Hr1).
    destruct (IH s1 Hwf1 Hthis Hn Hs1 Ht1 ltac:(lia))
      as (rs & st' & Hrun & Hall & Hr).
    exists (repeat DataOk (Z.to_nat (climb_period this)) ++ rs), st'.
    split; [|split].
    + rewrite (deliver_all_app _ _ _ _ rs _ _ Hrun1). exact Hrun.
    + apply Forall_app. split; [|exact Hall].
      apply Forall_forall. intros r Hin. now apply repeat_spec in Hin.
    + lia.
Qed.

(** C5. The increase is guarded by [m_rate < size () - 1], so the top
    index can be reached and cannot be passed: against a rate set of
    [nRates >= 2] entries some sequence of reports takes a freshly created
    station to [m_rate = nRates - 1] (data-ok reports alone do), and at
    [m_rate = nRates - 1] no data-ok report raises the rate. *)
Theorem top_rate_reached_and_not_passed (e : bool) (this : M.members)
        (nRates : Z) :
  M.well_formed this ->
  2 <= nRates <= uint32_modulus ->
  (exists rs st,
     deliver_all e this nRates rs (M.DoCreateStation this) = Done st /\
     Forall (fun r => r = DataOk) rs /\
     m_rate st = nRates - 1) /\
  (forall this' st,
     m_rate st = nRates - 1 ->
     m_rate (M.DoReportDataOk this' nRates st) = nRates - 1).
Proof.
  intros Hthis Hn. split.
  - destruct (climb_many e this nRates (Z.to_nat (nRates - 1))
                (M.DoCreateStation this))
      as (rs & st & Hrun & Hall & Hr);
      rewrite ?DoCreateStation_fields in *.
    + destruct Hthis. width_arith.
    + exact Hthis.
    + unfold addressable. lia.
    + reflexivity.
    + reflexivity.
    + station_fields. lia.
    + exists rs, st. repeat split; try assumption.
      rewrite Hr. station_fields. lia.
  - intros this' st Htop.
    destruct (increase_guard this' nRates st) eqn:Hg.
    + pose proof (increase_guard_headroom _ _ _ Hg) as Hroom.
      exfalso. width_arith.
    + rewrite (DoReportDataOk_idle _ _ _ Hg). exact Htop.
Qed.

Lemma top_rate_reached_and_not_passed_witness :
  exists rs st,
    deliver_all true M.default_members 4 rs
                (M.DoCreateStation M.default_members) = Done st /\
    Forall (fun r => r = DataOk) rs /\
    m_rate st = 4 - 1.
Proof.
  apply (proj1 (top_rate_reached_and_not_passed true M.default_members 4
                  ltac:(unfold M.well_formed, is_uint32, uint32_modulus;
                        simpl; lia)
                  ltac:(unfold uint32_modulus; lia))).
Defined.

(** ** The increase test is an equality test *)

(** C9. [DoReportDataOk] compares with [==]: when the timer value it
    tests is above the timer threshold and the success count it tests
    differs from the success threshold, the rate index is not raised, even
    with room above it.  Such a call happens: with the default thresholds
    the reports of [timer_overrun_reports] bring a fresh station to
    [m_timer = 15] on a normal-mode failure that does not reset the timer,
    and the data-ok report that follows tests [16] against [15]. *)
Theorem increase_test_is_exact (this : M.members) (nRates : Z)
        (st : ArfWifiRemoteStation) :
  (M.m_timerThreshold this < to_uint32 (m_timer st + 1) ->
   to_uint32 (m_success st + 1) <> M.m_successThreshold this ->
   m_rate (M.DoReportDataOk this nRates st) = m_rate st /\
   m_timer (M.DoReportDataOk this nRates st) = to_uint32 (m_timer st + 1)) /\
  (exists st15,
     deliver_all true M.default_members 2 timer_overrun_reports
                 (M.DoCreateStation M.default_members) = Done st15 /\
     reachable true 2 st15 /\
     m_recovery st15 = false /\
     m_timer st15 = M.m_timerThreshold M.default_members /\
     M.m_timerThreshold M.default_members < to_uint32 (m_timer st15 + 1) /\
     to_uint32 (m_success st15 + 1) <> M.m_successThreshold M.default_members /\
     m_rate st15 < to_size_t (2 - 1) /\
     m_rate (M.DoReportDataOk M.default_members 2 st15) = m_rate st15).
Proof.
  split.
  - intros Htimer Hsuccess.
    assert (Hg : increase_guard this nRates st = false).
    { unfold increase_guard.
      destruct (Z.eqb_spec (to_uint32 (m_success st + 1))
                           (M.m_successThreshold this)); [contradiction|].
      destruct (Z.eqb_spec (to_uint32 (m_timer st + 1))
                           (M.m_timerThreshold this)); [lia|].
      reflexivity. }
    rewrite (DoReportDataOk_idle _ _ _ Hg). split; reflexivity.
  - exists (mkStation 15 0 1 false 1 15 10 0).
    assert (Hrun : deliver_all true M.default_members 2 timer_overrun_reports
                     (M.DoCreateStation M.default_members)
                   = Done (mkStation 15 0 1 false 1 15 10 0))
      by (vm_compute; reflexivity).
    split; [exact Hrun|]. split.
    + eapply deliver_all_reachable; [apply reachable_create | exact Hrun].
    + repeat split; try (vm_compute; congruence).
Qed.

Lemma increase_test_is_exact_witness :
  let st := mkStation 15 0 1 false 1 15 10 0 in
  m_rate (M.DoReportDataOk M.default_members 2 st) = m_rate st /\
  m_timer (M.DoReportDataOk M.default_members 2 st) = to_uint32 (m_timer st + 1).
Proof.
  apply (proj1 (increase_test_is_exact M.default_members 2
                  (mkStation 15 0 1 false 1 15 10 0))).
  - vm_compute. reflexivity.
  - vm_compute. discriminate.
Defined.

(** ** Which thresholds the increase test reads *)

Lemma deliver_keeps_station_thresholds e this nRates r st st' :
  deliver e this nRates r st = Done st' ->
  m_successThreshold st' = m_successThreshold st /\
  m_timerTimeout st' = m_timerTimeout st.
Proof.
  destruct r; cbn [deliver];
    try (intros Hret; inversion Hret; subst; split; reflexivity).
  - unfold M.DoReportDataFailed, M.NS_ASSERT.
    destruct st as [t s f r y tt sth rate]; station_fields.
    destruct r, e; split_tests; station_fields; intros Hret;
      inversion Hret; subst; split; reflexivity.
  - intros Hret. inversion Hret; subst.
    destruct (increase_guard this nRates st) eqn:Hg.
    + rewrite (DoReportDataOk_fired _ _ _ Hg). split; reflexivity.
    + rewrite (DoReportDataOk_idle _ _ _ Hg). split; reflexivity.
Qed.

(** C6, on the code.  [DoCreateStation] copies both thresholds into the
    station and no report changes the copies, but [DoReportDataOk] never
    reads them: it tests the counters against the manager's own
    [m_successThreshold] and [m_timerThreshold] as they are at the time of
    the call.  A station created under the defaults (10 and 15) whose
    manager is then given SuccessThreshold 1 has its rate raised by the
    first data-ok report, with its own copy still at 10; under the
    attributes it was created with, the same report leaves the rate
    alone. *)
Theorem increase_test_reads_manager_thresholds :
  let created_under := M.mkManager 15 10 0 in
  let changed_to := M.mkManager 15 1 0 in
  let st := M.DoCreateStation created_under in
  (m_successThreshold st = 10 /\ m_timerTimeout st = 15) /\
  m_rate (M.DoReportDataOk created_under 2 st) = 0 /\
  m_rate (M.DoReportDataOk changed_to 2 st) = 1 /\
  m_successThreshold (M.DoReportDataOk changed_to 2 st) = 10 /\
  (forall e this nRates r s s',
     deliver e this nRates r s = Done s' ->
     m_successThreshold s' = m_successThreshold s /\
     m_timerTimeout s' = m_timerTimeout s) /\
  (forall this nRates s a b,
     M.DoReportDataOk this nRates
       (set_m_successThreshold a (set_m_timerTimeout b s)) =
     set_m_successThreshold a
       (set_m_timerTimeout b (M.DoReportDataOk this nRates s))).
Proof.
  cbv zeta. split; [split; reflexivity|].
  split; [reflexivity|]. split; [reflexivity|]. split; [reflexivity|].
  split.
  - intros e this nRates r s s'. apply deliver_keeps_station_thresholds.
  - intros this nRates s a b.
    destruct (increase_guard this nRates s) eqn:Hg.
    + rewrite (DoReportDataOk_fired _ _ _ Hg).
      rewrite DoReportDataOk_fired; [reflexivity|].
      destruct s; exact Hg.
    + rewrite (DoReportDataOk_idle _ _ _ Hg).
      rewrite DoReportDataOk_idle; [reflexivity|].
      destruct s; exact Hg.
Qed.

(** * Further properties of the manager *)

(** ** The two queries *)

Ltac split_width_test w :=
  destruct (Z.ltb_spec 20 w); destruct (Z.eqb_spec w 22);
  cbn [andb negb fst snd txChannelWidth].

(** X1. Both queries hand out the same channel width, and it is a legacy
    one: the station's width when that is at most 20 or exactly 22, and 20
    for every other width, so never 21 and never above 22. *)
Theorem queries_clamp_channel_width (B : WifiRemoteStationManager)
        (this : M.members) (base : WifiRemoteStation B)
        (st : ArfWifiRemoteStation) :
  let w := GetChannelWidth B base in
  let data := fst (M.DoGetDataTxVector B this base st) in
  let rts := M.DoGetRtsTxVector B this base st in
  txChannelWidth data = txChannelWidth rts /\
  (txChannelWidth data <= 20 \/ txChannelWidth data = 22) /\
  (w <= 20 \/ w = 22 -> txChannelWidth data = w) /\
  (20 < w -> w <> 22 -> txChannelWidth data = 20).
Proof.
  cbv zeta. unfold M.DoGetDataTxVector, M.DoGetRtsTxVector.
  split_width_test (GetChannelWidth B base); repeat split; intros; lia.
Qed.

Lemma queries_clamp_channel_width_witness :
  txChannelWidth (fst (M.DoGetDataTxVector sample_base M.default_members 40
                         (M.DoCreateStation M.default_members))) = 20.
Proof.
  apply (proj2 (proj2 (proj2 (queries_clamp_channel_width sample_base
           M.default_members 40 (M.DoCreateStation M.default_members))))).
  - simpl; lia.
  - simpl; lia.
Defined.

Lemma DoGetDataTxVector_manager B this base st :
  snd (M.DoGetDataTxVector B this base st) =
  M.set_m_currentRate
    (GetDataRate B (txMode (fst (M.DoGetDataTxVector B this base st)))
                 (txChannelWidth (fst (M.DoGetDataTxVector B this base st))))
    this.
Proof.
  unfold M.DoGetDataTxVector. cbn [fst snd txMode txChannelWidth].
  match goal with
  | |- context [M.m_currentRate this =? ?x] =>
      destruct (Z.eqb_spec (M.m_currentRate this) x) as [Heq|Hne]
  end; cbn [negb]; [|reflexivity].
  destruct this as [tt sth cur]. cbn in Heq |- *. now rewrite <- Heq.
Qed.

(** X2. Whatever [m_currentRate] held before, after [DoGetDataTxVector] it
    is the data rate of the mode just handed out at the width just handed
    out; the two thresholds are not written; and asking again without a
    report in between gives the same vector and leaves the manager as it
    is. *)
Theorem data_query_publishes_current_rate (B : WifiRemoteStationManager)
        (this : M.members) (base : WifiRemoteStation B)
        (st : ArfWifiRemoteStation) :
  let data := fst (M.DoGetDataTxVector B this base st) in
  let this' := snd (M.DoGetDataTxVector B this base st) in
  M.m_currentRate this' = GetDataRate B (txMode data) (txChannelWidth data) /\
  M.m_timerThreshold this' = M.m_timerThreshold this /\
  M.m_successThreshold this' = M.m_successThreshold this /\
  M.DoGetDataTxVector B this' base st = (data, this').
Proof.
  cbv zeta. rewrite DoGetDataTxVector_manager.
  repeat split.
  unfold M.DoGetDataTxVector at 1. cbn [M.m_currentRate M.set_m_currentRate].
  unfold M.DoGetDataTxVector. cbn [fst snd txMode txChannelWidth].
  rewrite Z.eqb_refl. cbn [negb]. reflexivity.
Qed.

Lemma deliver_reads_thresholds_only e this this' nRates r st :
  M.m_timerThreshold this' = M.m_timerThreshold this ->
  M.m_successThreshold this' = M.m_successThreshold this ->
  deliver e this' nRates r st = deliver e this nRates r st.
Proof.
  intros Ht Hs. destruct r; cbn [deliver]; try reflexivity.
  unfold M.DoReportDataOk. rewrite Ht, Hs. reflexivity.
Qed.

Lemma deliver_all_reads_thresholds_only e this this' nRates rs :
  M.m_timerThreshold this' = M.m_timerThreshold this ->
  M.m_successThreshold this' = M.m_successThreshold this ->
  forall st,
    deliver_all e this' nRates rs st = deliver_all e this nRates rs st.
Proof.
  intros Ht Hs. induction rs as [|r rs IH]; intros st; cbn [deliver_all].
  - reflexivity.
  - rewrite (deliver_reads_thresholds_only e this this' nRates r st Ht Hs).
    destruct (deliver e this nRates r st); cbn [bind]; [apply IH|reflexivity].
Qed.

(** X3. The traced rate is never read back: a report sequence run with the
    manager as a data query left it, for whatever station the query was
    made, ends exactly as the sequence run with the manager as it was
    before the query. *)
Theorem data_query_does_not_steer_reports (B : WifiRemoteStationManager)
        (e : bool) (this : M.members) (base : WifiRemoteStation B)
        (asked st : ArfWifiRemoteStation) (nRates : Z) (rs : list report) :
  deliver_all e (snd (M.DoGetDataTxVector B this base asked)) nRates rs st =
  deliver_all e this nRates rs st.
Proof.
  apply deliver_all_reads_thresholds_only;
    rewrite DoGetDataTxVector_manager; reflexivity.
Qed.

(** X4. For a station in any state the reports can bring it to, the index
    at which [DoGetDataTxVector] reads the supported modes is a position of
    the operational rate set; the RTS query reads position 0 of the set
    chosen by the protection flag whatever the reports were. *)
Theorem data_query_reads_inside_rate_set (B : WifiRemoteStationManager)
        (e : bool) (this : M.members) (base : WifiRemoteStation B)
        (nRates : Z) (st : ArfWifiRemoteStation) :
  1 <= nRates < size_t_modulus ->
  reachable e nRates st ->
  (exists i,
     0 <= i < nRates /\ i = m_rate st /\
     txMode (fst (M.DoGetDataTxVector B this base st)) = GetSupported B base i) /\
  txMode (M.DoGetRtsTxVector B this base st) =
    (if GetUseNonErpProtection B
     then GetNonErpSupported B base 0 else GetSupported B base 0).
Proof.
  intros Hn Hreach. split.
  - exists (m_rate st). split; [|split; reflexivity].
    apply (reachable_rate_in_range e nRates st Hn Hreach).
  - unfold M.DoGetRtsTxVector. cbn [txMode].
    destruct (GetUseNonErpProtection B); reflexivity.
Qed.

Lemma data_query_reads_inside_rate_set_witness :
  exists i,
    0 <= i < 4 /\
    i = m_rate (M.DoReportDataOk M.default_members 4
                  (M.DoCreateStation M.default_members)) /\
    txMode (fst (M.DoGetDataTxVector sample_base M.default_members 20
                   (M.DoReportDataOk M.default_members 4
                      (M.DoCreateStation M.default_members)))) =
    GetSupported sample_base 20 i.
Proof.
  apply (proj1 (data_query_reads_inside_rate_set sample_base true
                  M.default_members 20 4 _
                  ltac:(unfold size_t_modulus; lia)
                  (reachable_report true 4 M.default_members DataOk _ _
                     (reachable_create true 4 M.default_members) eq_refl))).
Defined.

(** ** When a failed report stops the program *)

(** X5. [DoReportDataFailed] stops the program in exactly one situation:
    the build has assertions and the retry counter is at its last value,
    so that the increment wraps it to 0.  Without assertions the same call
    returns with [m_retry = 0] in either mode.  In normal mode it counts
    as an even retry (the rate drops if it is above 0) and the timer is
    incremented, not reset; in recovery the rate is left alone and the
    timer is reset to 0. *)
Theorem failed_report_aborts_only_on_retry_wrap (e : bool)
        (st : ArfWifiRemoteStation) :
  Station.well_formed st ->
  ((exists msg, M.DoReportDataFailed e st = Aborted msg) <->
   e = true /\ m_retry st = uint32_modulus - 1) /\
  (m_retry st = uint32_modulus - 1 ->
   exists st',
     M.DoReportDataFailed false st = Done st' /\
     m_retry st' = 0 /\
     m_recovery st' = m_recovery st /\
     (m_recovery st = false ->
      m_rate st' = Z.max 0 (m_rate st - 1) /\
      m_timer st' = to_uint32 (m_timer st + 1)) /\
     (m_recovery st = true ->
      m_rate st' = m_rate st /\ m_timer st' = 0)).
Proof.
  intros Hwf. split; [split|].
  - intros [msg Habort].
    destruct e.
    + split; [reflexivity|].
      destruct (Z.eq_dec (m_retry st) (uint32_modulus - 1)) as [|Hne];
        [assumption|].
      destruct (DoReportDataFailed_returns true st Hwf) as [st' Hret].
      * right. unfold_width. lia.
      * congruence.
    + destruct (DoReportDataFailed_returns false st Hwf (or_introl eq_refl))
        as [st' Hret]. congruence.
  - intros [-> Hy]. revert Hwf Hy.
    unfold M.DoReportDataFailed, M.NS_ASSERT.
    destruct st as [t s f r y tt sth rate]; station_fields. intros Hwf ->.
    replace (to_uint32 (uint32_modulus - 1 + 1)) with 0 by reflexivity.
    cbn [Z.leb Z.compare]. destruct r; cbn [bind]; eexists; reflexivity.
  - destruct st as [t s f r y tt sth rate]; station_fields.
    intros ->.
    cbv beta zeta delta [M.DoReportDataFailed M.NS_ASSERT]. station_fields.
    replace (to_uint32 (uint32_modulus - 1 + 1)) with 0 by reflexivity.
    replace (to_uint32 (0 - 1) mod 2 =? 1) with true by reflexivity.
    change (2 <=? 0) with false. change (0 =? 1) with false.
    cbv iota. station_fields.
    destruct r.
    + eexists. split; [reflexivity|]. station_fields.
      repeat split; discriminate.
    + destruct (Z.eqb_spec rate 0) as [->|Hne]; cbn [negb]; eexists;
        (split; [reflexivity|]); station_fields;
        (split; [reflexivity|]); (split; [reflexivity|]);
        (split; [|discriminate]); intros _; (split; [|reflexivity]).
      * reflexivity.
      * change (2 <=? 0) with false. cbv iota. station_fields.
        rewrite to_uint32_pred by width_arith. width_arith.
Qed.

Lemma failed_report_aborts_only_on_retry_wrap_witness :
  exists st',
    M.DoReportDataFailed false (mkStation 0 0 7 true 4294967295 15 10 2)
    = Done st' /\
    m_retry st' = 0 /\
    m_recovery st' = true /\
    (true = false ->
     m_rate st' = Z.max 0 (2 - 1) /\ m_timer st' = to_uint32 (0 + 1)) /\
    (true = true -> m_rate st' = 2 /\ m_timer st' = 0).
Proof.
  apply (proj2 (failed_report_aborts_only_on_retry_wrap false
                  (mkStation 0 0 7 true 4294967295 15 10 2)
                  ltac:(unfold Station.well_formed, is_uint32, uint32_modulus;
                        simpl; lia))); reflexivity.
Defined.

(** ** What the counters tell about each other *)

Lemma deliver_all_invariant e this nRates (P : ArfWifiRemoteStation -> Prop) :
  (forall r st st', P st -> deliver e this nRates r st = Done st' -> P st') ->
  forall rs st st',
    P st -> deliver_all e this nRates rs st = Done st' -> P st'.
Proof.
  intros Hstep. induction rs as [|r rs IH]; intros st st' HP;
    cbn [deliver_all].
  - intros Hret. inversion Hret; subst. exact HP.
  - destruct (deliver e this nRates r st) as [st1|msg] eqn:Hd; cbn [bind].
    + apply IH. eapply Hstep; eassumption.
    + discriminate.
Qed.

Lemma streak_facts_deliver e this nRates r st st' :
  m_failed st = m_retry st /\
  (m_success st = 0 \/ m_retry st = 0) /\
  (m_recovery st = true -> m_timer st = 0 /\ m_success st = 0) ->
  deliver e this nRates r st = Done st' ->
  m_failed st' = m_retry st' /\
  (m_success st' = 0 \/ m_retry st' = 0) /\
  (m_recovery st' = true -> m_timer st' = 0 /\ m_success st' = 0).
Proof.
  intros Hinv. destruct r; cbn [deliver]; intros Hret;
    try (inversion Hret; subst; exact Hinv).
  - revert Hinv Hret. unfold M.DoReportDataFailed, M.NS_ASSERT.
    destruct st as [t s f r y tt sth rate]; station_fields.
    intros (-> & _ & _).
    destruct r, e; split_tests; station_fields; intros Hret;
      inversion Hret; subst; station_fields;
      repeat split; try (left; reflexivity); discriminate.
  - inversion Hret; subst.
    destruct (increase_guard this nRates st) eqn:Hg.
    + rewrite (DoReportDataOk_fired _ _ _ Hg). station_fields.
      repeat split. left; reflexivity.
    + rewrite (DoReportDataOk_idle _ _ _ Hg). station_fields.
      repeat split; try (right; reflexivity); discriminate.
Qed.

(** X6. In every state a station can reach, [m_failed] equals [m_retry];
    a success count and a retry count are never both running (one of
    [m_success], [m_retry] is 0); and a station in recovery has
    [m_timer = 0] and [m_success = 0]. *)
Theorem reachable_counters_agree (e : bool) (nRates : Z)
        (st : ArfWifiRemoteStation) :
  reachable e nRates st ->
  m_failed st = m_retry st /\
  (m_success st = 0 \/ m_retry st = 0) /\
  (m_recovery st = true -> m_timer st = 0 /\ m_success st = 0).
Proof.
  intros Hreach. induction Hreach as [this|this r st st' _ IH Hstep].
  - cbn. repeat split; try (left; reflexivity); discriminate.
  - eapply streak_facts_deliver; eassumption.
Qed.

Lemma reachable_counters_agree_witness :
  let st := M.DoReportDataOk M.default_members 4
              (M.DoCreateStation M.default_members) in
  m_failed st = m_retry st /\
  (m_success st = 0 \/ m_retry st = 0) /\
  (m_recovery st = true -> m_timer st = 0 /\ m_success st = 0).
Proof.
  apply (reachable_counters_agree true 4 _
           (reachable_report true 4 M.default_members DataOk _ _
              (reachable_create true 4 M.default_members) eq_refl)).
Defined.

(** ** Which report moves the rate which way *)

(** X7. The rate index rises only on a data-ok report, and the station
    that comes back from such a report is in recovery with [m_timer],
    [m_success] and [m_retry] at 0; it falls only on a data-failed report;
    the five logging reports hand the station back unchanged. *)
Theorem rate_moves_by_report_kind (e : bool) (this : M.members)
        (nRates : Z) (r : report) (st st' : ArfWifiRemoteStation) :
  Station.well_formed st ->
  addressable nRates ->
  deliver e this nRates r st = Done st' ->
  (m_rate st < m_rate st' ->
   r = DataOk /\ m_recovery st' = true /\
   m_timer st' = 0 /\ m_success st' = 0 /\ m_retry st' = 0) /\
  (m_rate st' < m_rate st -> r = DataFailed /\ m_success st' = 0) /\
  (writes_station r = false -> st' = st).
Proof.
  intros Hwf Hn.
  destruct r; cbn [deliver writes_station]; intros Hret;
    try (inversion Hret; subst;
         unfold M.DoReportRtsFailed, M.DoReportRtsOk, M.DoReportRxOk,
           M.DoReportFinalRtsFailed, M.DoReportFinalDataFailed;
         repeat split; intros; try reflexivity; lia).
  - destruct (DoReportDataFailed_rate_cases e st st' Hwf Hret) as [H|[_ H]];
      (split; [intros; lia|split; [|discriminate]]); intros _;
      (split; [reflexivity|]).
    all: revert Hret; unfold M.DoReportDataFailed, M.NS_ASSERT;
      destruct st as [t s f c y tt sth rate]; station_fields;
      destruct c, e; split_tests; station_fields; intros Hret;
      inversion Hret; subst; reflexivity.
  - inversion Hret; subst.
    destruct (increase_guard this nRates st) eqn:Hg.
    + rewrite (DoReportDataOk_fired _ _ _ Hg). station_fields.
      pose proof (increase_guard_headroom _ _ _ Hg) as Hroom.
      split; [intros _; repeat split|split; [|discriminate]].
      intros Hlt. exfalso. width_arith.
    + rewrite (DoReportDataOk_idle _ _ _ Hg). station_fields.
      split; [intros; lia|split; [intros; lia|discriminate]].
Qed.

Lemma rate_moves_by_report_kind_witness :
  let st := mkStation 9 9 0 false 0 15 10 1 in
  let st' := M.DoReportDataOk M.default_members 4 st in
  DataOk = DataOk /\ m_recovery st' = true /\
  m_timer st' = 0 /\ m_success st' = 0 /\ m_retry st' = 0.
Proof.
  apply (proj1 (rate_moves_by_report_kind true M.default_members 4 DataOk
                  (mkStation 9 9 0 false 0 15 10 1) _
                  ltac:(unfold Station.well_formed, is_uint32, uint32_modulus;
                        simpl; lia)
                  ltac:(unfold addressable, uint32_modulus; lia)
                  eq_refl)).
  vm_compute. reflexivity.
Defined.

(** X8. A rate increase that meets a failure at once is undone: when a
    data-ok report raises the rate, the data-failed report that follows it
    returns and puts the rate index back to the value it had before the
    two reports, with the station still in recovery. *)
Theorem increase_then_failure_restores_rate (e : bool) (this : M.members)
        (nRates : Z) (st : ArfWifiRemoteStation) :
  Station.well_formed st ->
  addressable nRates ->
  m_rate st < m_rate (M.DoReportDataOk this nRates st) ->
  exists st',
    deliver_all e this nRates [DataOk; DataFailed] st = Done st' /\
    m_rate st' = m_rate st /\
    m_recovery st' = true /\
    m_retry st' = 1 /\
    m_timer st' = 0 /\ m_success st' = 0.
Proof.
  intros Hwf Hn Hrise. cbn [deliver_all deliver bind].
  destruct (increase_guard this nRates st) eqn:Hg.
  - pose proof (increase_guard_headroom _ _ _ Hg) as Hroom.
    pose proof (DoReportDataOk_well_formed this nRates st Hwf) as Hwf1.
    rewrite (DoReportDataOk_fired _ _ _ Hg) in *.
    rewrite DoReportDataFailed_recovery;
      [|exact Hwf1|reflexivity|station_fields; unfold uint32_modulus; lia].
    eexists. split; [reflexivity|]. station_fields.
    assert (Hup : to_uint32 (m_rate st + 1) = m_rate st + 1) by width_arith.
    rewrite Hup. cbn [Z.eqb andb].
    destruct (Z.ltb_spec 0 (m_rate st + 1)); [|exfalso; width_arith].
    repeat split. lia.
  - rewrite (DoReportDataOk_idle _ _ _ Hg) in Hrise. station_fields. lia.
Qed.

Lemma increase_then_failure_restores_rate_witness :
  exists st',
    deliver_all true M.default_members 4 [DataOk; DataFailed]
                (mkStation 9 9 0 false 0 15 10 1) = Done st' /\
    m_rate st' = 1 /\ m_recovery st' = true /\ m_retry st' = 1 /\
    m_timer st' = 0 /\ m_success st' = 0.
Proof.
  apply (increase_then_failure_restores_rate true M.default_members 4
           (mkStation 9 9 0 false 0 15 10 1)
           ltac:(unfold Station.well_formed, is_uint32, uint32_modulus;
                 simpl; lia)
           ltac:(unfold addressable, uint32_modulus; lia)).
  vm_compute. reflexivity.
Defined.

(** ** The logging reports *)

(** X9. The RTS, RX and final-failure reports can be dropped from any
    sequence: the station ends where the data reports alone take it, and
    the program stops in the one case exactly when it stops in the
    other. *)
Theorem logging_reports_can_be_dropped (e : bool) (this : M.members)
        (nRates : Z) (rs : list report) (st : ArfWifiRemoteStation) :
  deliver_all e this nRates rs st =
  deliver_all e this nRates (filter writes_station rs) st.
Proof.
  revert st. induction rs as [|r rs IH]; intros st; [reflexivity|].
  destruct r; cbn [filter writes_station deliver_all deliver bind];
    try apply IH.
  - destruct (M.DoReportDataFailed e st); cbn [bind]; [apply IH|reflexivity].
Qed.

(** ** What a failure streak costs *)

Lemma normal_streak e this nRates (k : nat) :
  forall st,
    Station.well_formed st ->
    m_recovery st = false ->
    m_retry st + Z.of_nat k < uint32_modulus ->
    exists st',
      deliver_all e this nRates (repeat DataFailed k) st = Done st' /\
      Station.well_formed st' /\
      m_recovery st' = false /\
      m_retry st' = m_retry st + Z.of_nat k /\
      m_rate st' =
        Z.max 0 (m_rate st - ((m_retry st + Z.of_nat k) / 2 - m_retry st / 2)) /\
      (1 <= Z.of_nat k -> 2 <= m_retry st + Z.of_nat k -> m_timer st' = 0).
Proof.
  induction k as [|k IH]; intros st Hwf Hnormal Hhi.
  - exists st. cbn [repeat deliver_all].
    repeat split; try assumption; try apply Hwf; try lia.
    destruct Hwf as (_ & _ & _ & _ & _ & _ & Hr). unfold is_uint32 in Hr.
    replace (m_retry st + Z.of_nat 0) with (m_retry st) by lia. lia.
  - cbn [repeat deliver_all deliver].
    assert (Hy : m_retry st < uint32_modulus - 1) by lia.
    pose proof (DoReportDataFailed_normal e st Hwf Hnormal Hy) as Hstep.
    pose proof (DoReportDataFailed_well_formed e _ _ Hwf Hstep) as Hwf1.
    rewrite Hstep. cbn [bind].
    destruct (IH _ Hwf1 eq_refl) as (st' & Hrun & Hwf' & Hn' & Hy' & Hr' & Ht').
    + station_fields. lia.
    + exists st'. revert Hy' Hr' Ht'. station_fields. intros Hy' Hr' Ht'.
      split; [exact Hrun|]. split; [exact Hwf'|]. split; [exact Hn'|].
      split; [lia|]. split.
      * rewrite Hr'. clear Hr' Ht' Hrun Hstep.
        assert (Hrate : 0 <= m_rate st) by apply Hwf.
        assert (Hretry : 0 <= m_retry st) by apply Hwf.
        rewrite Zeven_mod.
        replace (m_retry st + 1 + Z.of_nat k)
          with (m_retry st + Z.of_nat (S k)) by lia.
        destruct (Z.eqb_spec ((m_retry st + 1) mod 2) 0);
          destruct (Z.ltb_spec 0 (m_rate st)); cbn [andb];
          Z.to_euclidean_division_equations; lia.
      * intros _ Hge. destruct k as [|k'].
        -- cbn [repeat deliver_all] in Hrun. inversion Hrun; subst.
           station_fields.
           destruct (Z.eqb_spec (m_retry st) 0); [lia|reflexivity].
        -- apply Ht'; lia.
Qed.

(** X10. In normal mode a streak of [k] failures that starts at
    [m_retry = 0] lowers the rate index by [k / 2] positions, stopping at
    position 0: every second failure costs one position.  The streak
    returns for every [k] below 2^32, leaves the station in normal mode
    with [m_retry = k], and from the second failure on the timer is 0. *)
Theorem normal_streak_costs_half (e : bool) (this : M.members)
        (nRates : Z) (k : nat) (st : ArfWifiRemoteStation) :
  Station.well_formed st ->
  m_recovery st = false ->
  m_retry st = 0 ->
  Z.of_nat k < uint32_modulus ->
  exists st',
    deliver_all e this nRates (repeat DataFailed k) st = Done st' /\
    m_rate st' = Z.max 0 (m_rate st - Z.of_nat k / 2) /\
    m_retry st' = Z.of_nat k /\
    m_recovery st' = false /\
    (2 <= Z.of_nat k -> m_timer st' = 0).
Proof.
  intros Hwf Hnormal Hretry Hk.
  destruct (normal_streak e this nRates k st Hwf Hnormal)
    as (st' & Hrun & _ & Hn' & Hy' & Hr' & Ht'); [lia|].
  exists st'. rewrite Hretry in *. cbn [Z.add Z.div] in *.
  split; [exact Hrun|]. split.
  - rewrite Hr'. change (0 / 2) with 0. f_equal. lia.
  - split; [exact Hy'|]. split; [exact Hn'|]. intros Hge. apply Ht'; lia.
Qed.

Lemma normal_streak_costs_half_witness :
  exists st',
    deliver_all true M.default_members 8 (repeat DataFailed 5)
                (mkStation 3 4 0 false 0 15 10 6) = Done st' /\
    m_rate st' = Z.max 0 (6 - Z.of_nat 5 / 2) /\
    m_retry st' = Z.of_nat 5 /\
    m_recovery st' = false /\
    (2 <= Z.of_nat 5 -> m_timer st' = 0).
Proof.
  apply (normal_streak_costs_half true M.default_members 8 5
           (mkStation 3 4 0 false 0 15 10 6)
           ltac:(unfold Station.well_formed, is_uint32, uint32_modulus;
                 simpl; lia)
           eq_refl eq_refl
           ltac:(unfold uint32_modulus; simpl; lia)).
Defined.

(** X11. In recovery a streak of failures costs one position however long
    it is: [k >= 1] failures in a row starting at [m_retry = 0] lower the
    rate index by exactly one (or leave it at 0), keep the station in
    recovery and leave the timer at 0. *)
Theorem recovery_streak_costs_one (e : bool) (this : M.members)
        (nRates : Z) (k : nat) (st : ArfWifiRemoteStation) :
  Station.well_formed st ->
  m_recovery st = true ->
  m_retry st = 0 ->
  Z.of_nat (S k) < uint32_modulus ->
  exists st',
    deliver_all e this nRates (repeat DataFailed (S k)) st = Done st' /\
    m_rate st' = Z.max 0 (m_rate st - 1) /\
    m_retry st' = Z.of_nat (S k) /\
    m_recovery st' = true /\
    m_timer st' = 0.
Proof.
  intros Hwf Hrec Hretry Hk. cbn [repeat deliver_all deliver].
  assert (Hy : m_retry st < uint32_modulus - 1)
    by (rewrite Hretry; unfold uint32_modulus; lia).
  pose proof (DoReportDataFailed_recovery e st Hwf Hrec Hy) as Hstep.
  pose proof (DoReportDataFailed_well_formed e _ _ Hwf Hstep) as Hwf1.
  rewrite Hstep. cbn [bind].
  destruct (recovery_streak e this nRates k _ Hwf1 eq_refl)
    as (st' & Hrun & Hrec' & Hr' & Hy' & Ht').
  - station_fields. lia.
  - station_fields. lia.
  - exists st'. revert Hr' Hy' Ht' Hrun. rewrite Hretry. station_fields.
    cbn [Z.eqb andb]. intros Hr' Hy' Ht' Hrun.
    split; [exact Hrun|]. split.
    + rewrite Hr'. assert (0 <= m_rate st) by apply Hwf.
      destruct (Z.ltb_spec 0 (m_rate st)); lia.
    + split; [lia|]. split; [exact Hrec'|].
      destruct k as [|k'].
      * cbn [repeat deliver_all] in Hrun. inversion Hrun; subst. reflexivity.
      * apply Ht'. lia.
Qed.

Lemma recovery_streak_costs_one_witness :
  exists st',
    deliver_all true M.default_members 8 (repeat DataFailed 5)
                (mkStation 0 0 0 true 0 15 10 6) = Done st' /\
    m_rate st' = Z.max 0 (6 - 1) /\
    m_retry st' = Z.of_nat 5 /\
    m_recovery st' = true /\
    m_timer st' = 0.
Proof.
  apply (recovery_streak_costs_one true M.default_members 8 4
           (mkStation 0 0 0 true 0 15 10 6)
           ltac:(unfold Station.well_formed, is_uint32, uint32_modulus;
                 simpl; lia)
           eq_refl eq_refl
           ltac:(unfold uint32_modulus; lia)).
Defined.

(** ** Failures that come one at a time *)

Lemma isolated_failures_keep_floor e this nRates (floor : Z) :
  addressable nRates ->
  forall rs after_failure st,
    Station.well_formed st ->
    floor <= m_rate st ->
    (after_failure = false ->
     m_retry st = 0 /\ (m_recovery st = true -> floor + 1 <= m_rate st)) ->
    isolated_failures after_failure rs = true ->
    exists st',
      deliver_all e this nRates rs st = Done st' /\ floor <= m_rate st'.
Proof.
  intros Hn. induction rs as [|r rs IH]; intros flag st Hwf Hfloor Hfresh Hiso.
  - exists st. split; [reflexivity|assumption].
  - destruct r; cbn [isolated_failures] in Hiso;
      cbn [deliver_all deliver bind];
      try (apply (IH flag st Hwf Hfloor Hfresh Hiso)).
    + apply andb_prop in Hiso as [Hflag Hiso].
      destruct flag; [discriminate|].
      destruct (Hfresh eq_refl) as [Hretry Hprobe].
      assert (Hy : m_retry st < uint32_modulus - 1)
        by (rewrite Hretry; unfold uint32_modulus; lia).
      destruct (m_recovery st) eqn:Hmode.
      * pose proof (DoReportDataFailed_recovery e st Hwf Hmode Hy) as Hstep.
        pose proof (DoReportDataFailed_well_formed e _ _ Hwf Hstep) as Hwf1.
        rewrite Hstep. cbn [bind].
        apply (IH true _ Hwf1); [|discriminate|exact Hiso].
        station_fields. specialize (Hprobe eq_refl).
        destruct ((m_retry st =? 0) && (0 <? m_rate st)); lia.
      * pose proof (DoReportDataFailed_normal e st Hwf Hmode Hy) as Hstep.
        pose proof (DoReportDataFailed_well_formed e _ _ Hwf Hstep) as Hwf1.
        rewrite Hstep. cbn [bind].
        apply (IH true _ Hwf1); [|discriminate|exact Hiso].
        station_fields. rewrite Hretry. cbn [Z.add Z.even Pos.add andb].
        exact Hfloor.
    + pose proof (DoReportDataOk_well_formed this nRates st Hwf) as Hwf1.
      apply (IH false _ Hwf1); [| |exact Hiso].
      * destruct (DoReportDataOk_rate_cases this nRates st Hwf Hn)
          as [Hsame|[_ Hup]]; lia.
      * intros _. destruct (increase_guard this nRates st) eqn:Hg.
        -- pose proof (increase_guard_headroom _ _ _ Hg) as Hroom.
           rewrite (DoReportDataOk_fired _ _ _ Hg). station_fields.
           split; [reflexivity|]. intros _. width_arith.
        -- rewrite (DoReportDataOk_idle _ _ _ Hg). station_fields.
           split; [reflexivity|discriminate].
Qed.

(** X12. Failures that never come two in a row do not cost rate: take a
    station in normal mode with [m_retry = 0] and any sequence of reports
    in which each data failure is followed by a data-ok report before the
    next data failure.  The sequence returns, and the rate index at its
    end is at least the rate index at its start. *)
Theorem isolated_failures_never_lower_rate (e : bool) (this : M.members)
        (nRates : Z) (rs : list report) (st : ArfWifiRemoteStation) :
  Station.well_formed st ->
  addressable nRates ->
  m_recovery st = false ->
  m_retry st = 0 ->
  isolated_failures false rs = true ->
  exists st',
    deliver_all e this nRates rs st = Done st' /\ m_rate st <= m_rate st'.
Proof.
  intros Hwf Hn Hnormal Hretry Hiso.
  apply (isolated_failures_keep_floor e this nRates (m_rate st) Hn
           rs false st Hwf (Z.le_refl _)); [|exact Hiso].
  intros _. split; [exact Hretry|]. rewrite Hnormal. discriminate.
Qed.

Lemma isolated_failures_never_lower_rate_witness :
  exists st',
    deliver_all true M.default_members 4
                [DataFailed; DataOk; RtsFailed; DataFailed; DataOk; DataFailed]
                (mkStation 0 0 0 false 0 15 10 2) = Done st' /\
    2 <= m_rate st'.
Proof.
  apply (isolated_failures_never_lower_rate true M.default_members 4
           [DataFailed; DataOk; RtsFailed; DataFailed; DataOk; DataFailed]
           (mkStation 0 0 0 false 0 15 10 2)
           ltac:(unfold Station.well_formed, is_uint32, uint32_modulus;
                 simpl; lia)
           ltac:(unfold addressable, uint32_modulus; lia)
           eq_refl eq_refl eq_refl).
Defined.

(** ** Runs of successes *)

Lemma ok_streak_at_top e this nRates (k : nat) :
  forall st,
    nRates - 1 <= m_rate st ->
    1 <= nRates < size_t_modulus ->
    exists st',
      deliver_all e this nRates (repeat DataOk k) st = Done st' /\
      m_rate st' = m_rate st.
Proof.
  induction k as [|k IH]; intros st Htop Hn.
  - exists st. split; reflexivity.
  - cbn [repeat deliver_all deliver bind].
    assert (Hg : increase_guard this nRates st = false).
    { destruct (increase_guard this nRates st) eqn:Hg; [|reflexivity].
      pose proof (increase_guard_headroom _ _ _ Hg) as Hroom.
      exfalso. width_arith. }
    rewrite (DoReportDataOk_idle _ _ _ Hg).
    destruct (IH (mkStation (to_uint32 (m_timer st + 1))
                            (to_uint32 (m_success st + 1)) 0 false 0
                            (m_timerTimeout st) (m_successThreshold st)
                            (m_rate st)) Htop Hn) as (st' & Hrun & Hr).
    exists st'. split; assumption.
Qed.

Lemma ok_run_periods e this nRates (q : nat) :
  forall st (j : nat),
    Station.well_formed st ->
    M.well_formed this ->
    addressable nRates ->
    m_success st = 0 ->
    m_timer st = 0 ->
    m_rate st <= nRates - 1 ->
    Z.of_nat j < climb_period this ->
    exists st',
      deliver_all e this nRates
        (repeat DataOk (q * Z.to_nat (climb_period this) + j)) st = Done st' /\
      m_rate st' = Z.min (nRates - 1) (m_rate st + Z.of_nat q).
Proof.
  induction q as [|q IH]; intros st j Hwf Hthis Hn Hs Ht Hr Hj.
  - cbn [Nat.mul Nat.add].
    destruct (ok_streak_idle e this nRates j st Hwf)
      as (st' & Hrun & _ & _ & _ & Hr').
    + rewrite Hs. pose proof (climb_period_bounds this Hthis). lia.
    + rewrite Ht. pose proof (climb_period_bounds this Hthis). lia.
    + intros i Hi. rewrite Hs, Ht.
      apply (climb_period_misses this i Hthis). lia.
    + exists st'. split; [exact Hrun|]. lia.
  - replace (S q * Z.to_nat (climb_period this) + j)%nat
      with (Z.to_nat (climb_period this)
            + (q * Z.to_nat (climb_period this) + j))%nat by lia.
    rewrite repeat_app.
    destruct (Z.eq_dec (m_rate st) (nRates - 1)) as [Htop|Hbelow].
    + rewrite <- repeat_app.
      destruct (ok_streak_at_top e this nRates
                  (Z.to_nat (climb_period this)
                   + (q * Z.to_nat (climb_period this) + j)) st)
        as (st' & Hrun & Hr'); [lia|unfold_width; lia|].
      exists st'. split; [exact Hrun|]. lia.
    + destruct (climb_one e this nRates st Hwf Hthis Hn Hs Ht ltac:(lia))
        as (s1 & Hrun1 & Hwf1 & Hs1 & Ht1 & Hr1).
      rewrite (deliver_all_app _ _ _ _ _ _ _ Hrun1).
      destruct (IH s1 j Hwf1 Hthis Hn Hs1 Ht1 ltac:(lia) Hj)
        as (st' & Hrun & Hr').
      exists st'. split; [exact Hrun|]. lia.
Qed.

(** X13. With no failure in between, the rate index after [k] data-ok
    reports on a fresh station is [k / p] capped at the top index
    [nRates - 1], where [p] is the smaller of the two thresholds (a
    threshold of 0 counting as 2^32): the rate rises once every [p]
    reports until it reaches the top and then stays there. *)
Theorem success_run_rate (e : bool) (this : M.members) (nRates : Z)
        (k : nat) :
  M.well_formed this ->
  addressable nRates ->
  exists st,
    deliver_all e this nRates (repeat DataOk k) (M.DoCreateStation this)
    = Done st /\
    m_rate st = Z.min (nRates - 1) (Z.of_nat k / climb_period this).
Proof.
  intros Hthis Hn.
  pose proof (climb_period_bounds this Hthis) as Hp.
  set (P := Z.to_nat (climb_period this)).
  assert (HP : Z.of_nat P = climb_period this) by (subst P; lia).
  assert (HP0 : P <> 0%nat) by lia.
  rewrite (Nat.div_mod_eq k P).
  replace (P * (k / P) + k mod P)%nat with ((k / P) * P + k mod P)%nat by lia.
  destruct (ok_run_periods e this nRates (k / P) (M.DoCreateStation this)
              (k mod P)) as (st & Hrun & Hr);
    rewrite ?DoCreateStation_fields in *; try reflexivity; try assumption.
  - destruct Hthis. width_arith.
  - station_fields. unfold addressable in Hn. lia.
  - rewrite <- HP. apply Nat2Z.inj_lt. now apply Nat.mod_upper_bound.
  - exists st. split; [exact Hrun|]. rewrite Hr. station_fields.
    rewrite <- HP, <- Nat2Z.inj_div.
    replace ((k / P * P + k mod P) / P)%nat with (k / P)%nat; [reflexivity|].
    rewrite Nat.div_add_l by exact HP0.
    rewrite (Nat.div_small (k mod P) P) by (now apply Nat.mod_upper_bound).
    lia.
Qed.

Lemma success_run_rate_witness :
  exists st,
    deliver_all true M.default_members 4 (repeat DataOk 25)
                (M.DoCreateStation M.default_members) = Done st /\
    m_rate st = Z.min (4 - 1) (Z.of_nat 25 / climb_period M.default_members).
Proof.
  apply (success_run_rate true M.default_members 4 25
           ltac:(unfold M.well_formed, is_uint32, uint32_modulus; simpl; lia)
           ltac:(unfold addressable, uint32_modulus; lia)).
Defined.

Lemma ok_streak_idle_normal e this nRates (k : nat) st :
  Station.well_formed st ->
  m_recovery st = false ->
  m_retry st = 0 ->
  m_success st + Z.of_nat k < uint32_modulus ->
  m_timer st + Z.of_nat k < uint32_modulus ->
  (forall j, 1 <= j <= Z.of_nat k ->
             m_success st + j <> M.m_successThreshold this /\
             m_timer st + j <> M.m_timerThreshold this) ->
  exists st',
    deliver_all e this nRates (repeat DataOk k) st = Done st' /\
    Station.well_formed st' /\
    m_recovery st' = false /\ m_retry st' = 0 /\
    m_success st' = m_success st + Z.of_nat k /\
    m_timer st' = m_timer st + Z.of_nat k /\
    m_rate st' = m_rate st.
Proof.
  intros Hwf Hnormal Hretry Hs Ht Hmiss. destruct k as [|k].
  - exists st. cbn [repeat deliver_all]. repeat split; try lia; try assumption;
      apply Hwf.
  - destruct (ok_streak_idle e this nRates k st Hwf)
      as (s1 & Hrun & Hwf1 & Hs1 & Ht1 & Hr1); try lia.
    { intros j Hj. apply Hmiss. lia. }
    rewrite repeat_snoc, (deliver_all_app _ _ _ _ [DataOk] _ _ Hrun).
    cbn [deliver_all deliver bind].
    assert (Hsk : to_uint32 (m_success s1 + 1) = m_success s1 + 1)
      by (apply to_uint32_succ; [apply Hwf1 | lia]).
    assert (Htk : to_uint32 (m_timer s1 + 1) = m_timer s1 + 1)
      by (apply to_uint32_succ; [apply Hwf1 | lia]).
    assert (Hg : increase_guard this nRates s1 = false).
    { unfold increase_guard. rewrite Hsk, Htk, Hs1, Ht1.
      destruct (Hmiss (Z.of_nat k + 1) ltac:(lia)) as [Hms Hmt].
      destruct (Z.eqb_spec (m_success st + Z.of_nat k + 1)
                           (M.m_successThreshold this)); [lia|].
      destruct (Z.eqb_spec (m_timer st + Z.of_nat k + 1)
                           (M.m_timerThreshold this)); [lia|].
      reflexivity. }
    pose proof (DoReportDataOk_well_formed this nRates s1 Hwf1) as Hwf2.
    rewrite (DoReportDataOk_idle _ _ _ Hg) in *.
    eexists. split; [reflexivity|]. split; [exact Hwf2|].
    station_fields. rewrite Hsk, Htk. repeat split; lia.
Qed.

(** X14. The timer alone can raise the rate, across a failure.  Start in
    normal mode with all counters at 0 and room above the rate; let [a]
    successes, one failure and [b >= 1] successes follow, neither run of
    successes being long enough to meet the success threshold before the
    end, and [a + 1 + b] being the timer threshold.  The single failure
    neither lowers the rate nor resets the timer, and the last report
    raises the rate by one and puts the station in recovery. *)
Theorem timer_raises_rate_across_one_failure (e : bool) (this : M.members)
        (nRates : Z) (a b : nat) (st : ArfWifiRemoteStation) :
  Station.well_formed st ->
  M.well_formed this ->
  addressable nRates ->
  m_recovery st = false ->
  m_retry st = 0 ->
  m_success st = 0 ->
  m_timer st = 0 ->
  m_rate st < nRates - 1 ->
  Z.of_nat a < M.m_successThreshold this ->
  1 <= Z.of_nat b <= M.m_successThreshold this ->
  Z.of_nat a + 1 + Z.of_nat b = M.m_timerThreshold this ->
  exists st',
    deliver_all e this nRates
      (repeat DataOk a ++ [DataFailed] ++ repeat DataOk b) st = Done st' /\
    m_rate st' = m_rate st + 1 /\
    m_recovery st' = true /\
    m_timer st' = 0 /\ m_success st' = 0.
Proof.
  intros Hwf Hthis Hn Hnormal Hretry Hs Ht Hroom Ha Hb Hsum.
  assert (HT : M.m_timerThreshold this < uint32_modulus) by apply Hthis.
  assert (HS : M.m_successThreshold this < uint32_modulus) by apply Hthis.
  destruct (ok_streak_idle_normal e this nRates a st Hwf Hnormal Hretry)
    as (s1 & Hrun1 & Hwf1 & Hn1 & Hy1 & Hs1 & Ht1 & Hr1); try lia.
  rewrite (deliver_all_app _ _ _ _ _ _ _ Hrun1).
  cbn [app deliver_all deliver].
  assert (Hy : m_retry s1 < uint32_modulus - 1)
    by (rewrite Hy1; unfold uint32_modulus; lia).
  pose proof (DoReportDataFailed_normal e s1 Hwf1 Hn1 Hy) as Hstep.
  pose proof (DoReportDataFailed_well_formed e _ _ Hwf1 Hstep) as Hwf2.
  rewrite Hstep. cbn [bind].
  rewrite Hy1 in *. cbn [Z.eqb Z.add Z.even Pos.add andb] in *.
  assert (Ht2 : to_uint32 (m_timer s1 + 1) = m_timer s1 + 1)
    by (apply to_uint32_succ; [apply Hwf1 | lia]).
  rewrite Ht2 in *.
  destruct b as [|b]; [lia|].
  match goal with
  | |- context [deliver_all _ _ _ _ ?s2] =>
      destruct (ok_streak_idle e this nRates b s2 Hwf2)
        as (s3 & Hrun3 & Hwf3 & Hs3 & Ht3 & Hr3)
  end; station_fields; try lia.
  rewrite repeat_snoc, (deliver_all_app _ _ _ _ [DataOk] _ _ Hrun3).
  cbn [deliver_all deliver bind].
  revert Hs3 Ht3 Hr3. station_fields. intros Hs3 Ht3 Hr3.
  assert (Hg : increase_guard this nRates s3 = true).
  { unfold increase_guard. apply andb_true_intro. split.
    - apply orb_true_iff. right. apply Z.eqb_eq.
      rewrite to_uint32_succ; [lia|apply Hwf3|lia].
    - apply Z.ltb_lt. rewrite Hr3, Hr1. unfold_width.
      rewrite Z.mod_small; lia. }
  rewrite (DoReportDataOk_fired _ _ _ Hg). eexists. split; [reflexivity|].
  station_fields. rewrite Hr3, Hr1. repeat split.
  apply to_uint32_succ; [apply Hwf | unfold_width; lia].
Qed.

Lemma timer_raises_rate_across_one_failure_witness :
  exists st',
    deliver_all true M.default_members 4
      (repeat DataOk 9 ++ [DataFailed] ++ repeat DataOk 5)
      (mkStation 0 0 0 false 0 15 10 1) = Done st' /\
    m_rate st' = 1 + 1 /\ m_recovery st' = true /\
    m_timer st' = 0 /\ m_success st' = 0.
Proof.
  apply (timer_raises_rate_across_one_failure true M.default_members 4 9 5
           (mkStation 0 0 0 false 0 15 10 1)
           ltac:(unfold Station.well_formed, is_uint32, uint32_modulus;
                 simpl; lia)
           ltac:(unfold M.well_formed, is_uint32, uint32_modulus; simpl; lia)
           ltac:(unfold addressable, uint32_modulus; lia)
           eq_refl eq_refl eq_refl eq_refl
           ltac:(simpl; lia) ltac:(simpl; lia) ltac:(simpl; lia)
           ltac:(simpl; lia)).
Defined.
